(** * CodeMentor: access control and record handlers

    A shallow embedding of the server-side controllers of the CodeMentor
    backend (interview sessions, submissions, interview questions, user
    statistics, problem tags, problems, users) together with the
    properties of their authorization logic.

    Every controller is an [async (req, res)] function that reads or
    writes documents of a document store and answers with a status code
    and a JSON body.  Here a controller is a function from the store and
    the relevant parts of the request to a response and the next store.
    Collections are finite maps from the document id to the document;
    the tag collection is a list, since the order and the number of its
    records matter.  A JavaScript exception inside the [try] block is
    [None] in the option monad, and the [catch] block turns it into the
    controller's 500 answer, leaving the store as it was.  The store
    itself never fails. *)

From Stdlib Require Import ZArith Floats Sorted Ascii.
From stdpp Require Import base option strings gmap list sorting.

Set Default Proof Using "Type".

(** ** Documents *)

Record User := {
  _id : string;
  username : string;
  email : string;
  role : string;
}.

(** [req.user.id] is the string form of [req.user._id]. *)
Definition id (u : User) : string := _id u.

Record InterviewSession := {
  userId : string;                 (* reference to the owning user *)
  interviewType : string;
  startTime : Z;
  endTime : Z;
  status : string;
  feedback : option string;
  lastUpdatedBy : option string;
  lastUpdateTime : option Z;
}.

Record Submission := {
  sub_problemId : string;
  sub_userId : string;             (* reference to the submitting user *)
  code : string;
  language : string;
  sub_status : option string;
  result : option string;
  executionTime : option Z;
}.

Record InterviewQuestion := {
  session_id : string;
  question : string;
  submittedAnswer : option string;
  q_feedback : option string;
  answer : option string;
}.

Record Problem := {
  title : string;
  description : string;
  creatorId : string;
  approved : bool;
}.

Record ProblemTag := {
  tag_id : string;
  problemId : string;
  tag : string;
}.

(** JavaScript numbers are IEEE 754 doubles. *)
Record UserStats := {
  stats_userId : string;
  problemsSolved : float;
  averageScore : float;
  timeSpent : float;
  studyPlan : option string;
  lastUpdated : option Z;
}.

Record Store := {
  users : gmap string User;
  sessions : gmap string InterviewSession;
  submissions : gmap string Submission;
  questions : gmap string InterviewQuestion;
  problems : gmap string Problem;
  tags : list ProblemTag;
  stats : gmap string UserStats;   (* one record per userId *)
}.

(** ** Responses *)

Inductive Body :=
| Message (message : string)
| SessionData (s : InterviewSession)
| SubmissionData (s : Submission)
| QuestionData (q : InterviewQuestion)
| ProblemData (p : Problem)
| TagData (t : ProblemTag)
| StatsData (s : UserStats)
| UserData (u : User).

Record Response := {
  statusCode : nat;
  json : Body;
}.

Definition respond (c : nat) (b : Body) : Response :=
  {| statusCode := c; json := b |}.

(** ** JavaScript helpers *)

(** [a !== b] on strings. *)
Definition strict_ne (a b : string) : bool := bool_decide (a ≠ b).
Infix "!==" := strict_ne (at level 70, no associativity).

(** Truthiness of an optional string field of the request body: a
    missing field is [undefined], and the empty string is falsy too. *)
Definition truthy (v : option string) : bool :=
  match v with
  | None => false
  | Some s => bool_decide (s ≠ "")
  end.

(** [v || d]. *)
Definition or_else (v : option string) (d : string) : string :=
  match v with
  | Some s => if bool_decide (s ≠ "") then s else d
  | None => d
  end.

(** [a && b] where evaluating [b] may throw: [b] is evaluated only when
    [a] is true. *)
Definition and_then (a : bool) (b : option bool) : option bool :=
  if a then b else Some false.

(** [try { ... } catch (error) { res.status(500)... }]: an exception
    leaves the store as it was and answers with [onError]. *)
Definition try_catch {A} (st : A) (onError : Response)
    (r : option (Response * A)) : Response * A :=
  default (onError, st) r.

(** [Model.findById(...).populate("userId", ...)]: the reference is
    replaced by the referenced user document, or by [null] when no such
    user exists. *)
Definition populate (st : Store) (ref : string) : option User :=
  users st !! ref.

(** ** Identity resolution (verifyToken, verifyAdmin) *)

(** What the request presents: no token in the cookie or the header,
    a token that [jwt.verify] rejects (it throws), or a token that
    verifies and binds the id [uid]. *)
Inductive Token :=
| NoToken
| Invalid
| Valid (uid : string).

Definition verifyToken (st : Store) (token : Token) : Response + User :=
  match token with
  | NoToken =>
      inl (respond 401 (Message "Access denied. No token provided."))
  | Invalid => inl (respond 401 (Message "Invalid token"))
  | Valid uid =>
      match users st !! uid with
      | None => inl (respond 401 (Message "User not found"))
      | Some u => inr u
      end
  end.

Definition verifyAdmin (u : User) : option Response :=
  if role u !== "admin"
  then Some (respond 403 (Message "Admin access required"))
  else None.

(** The identity attached to the request is the record the store holds
    under its id. *)
Definition authenticated (st : Store) (u : User) : Prop :=
  users st !! id u = Some u.

(** ** Role gate (checkRolePermission) *)

Definition checkRolePermission (allowedRoles : list string)
    (st : Store) (requser : option User) : option Response :=
  default (Some (respond 500 (Message "Server error")))
    (ru ← requser;
     match users st !! id ru with
     | None => Some (Some (respond 404 (Message "User not found")))
     | Some user =>
         if bool_decide (role user ∈ allowedRoles)
         then Some None                                   (* next() *)
         else Some (Some (respond 403 (Message "Permission denied")))
     end).

(** ** Interview sessions *)

Section SessionController.

(** [new Date(s)]: the time value of the date, [None] for an Invalid
    Date. *)
Variable parseDate : string → option Z.

Definition validInterviewTypes : list string :=
  ["Technical"; "HR"; "System Design"; "Behavioral"].

Record SessionBody := {
  b_interviewType : option string;
  b_startTime : option string;
  b_endTime : option string;
  b_userId : option string;
  b_status : option string;
  b_feedback : option string;
}.

Definition newSession (owner ty : string) (t0 t1 : Z) : InterviewSession :=
  {| userId := owner; interviewType := ty; startTime := t0; endTime := t1;
     status := "Pending"; feedback := None; lastUpdatedBy := None;
     lastUpdateTime := None |}.

Definition save_session (newId : string) (s : InterviewSession)
    (st : Store) : Store :=
  {| users := users st; sessions := <[newId := s]> (sessions st);
     submissions := submissions st; questions := questions st;
     problems := problems st; tags := tags st; stats := stats st |}.

Definition remove_session (sid : string) (st : Store) : Store :=
  {| users := users st; sessions := delete sid (sessions st);
     submissions := submissions st; questions := questions st;
     problems := problems st; tags := tags st; stats := stats st |}.

(** createInterviewSession, with input validation.  [newId] is the id
    the store gives the new document. *)
Definition createInterviewSession (st : Store) (requser : option User)
    (body : SessionBody) (newId : string) : Response * Store :=
  try_catch st (respond 500 (Message "Failed to create interview session"))
    (if negb (truthy (b_interviewType body)) || negb (truthy (b_startTime body))
        || negb (truthy (b_endTime body))
     then Some (respond 400 (Message "All required fields must be provided"), st)
     else
       ty ← b_interviewType body;
       t0 ← b_startTime body;
       t1 ← b_endTime body;
       match parseDate t0, parseDate t1 with
       | Some startDate, Some endDate =>
           if (endDate <=? startDate)%Z
           then Some (respond 400 (Message "End time must be after start time"), st)
           else if negb (bool_decide (ty ∈ validInterviewTypes))
           then Some (respond 400 (Message "Invalid interview type"), st)
           else
             (* userId || req.user.id; the right operand is read only
                when the left one is falsy *)
             owner ← (if truthy (b_userId body) then b_userId body
                      else id <$> requser);
             let s := newSession owner ty startDate endDate in
             Some (respond 201 (SessionData s), save_session newId s st)
       | _, _ => Some (respond 400 (Message "Invalid date format provided"), st)
       end).

(** The earlier createInterviewSession, without date and type checks.
    An Invalid Date does not pass the store's cast on save, and the
    catch block answers. *)
Definition createInterviewSession_basic (st : Store) (requser : option User)
    (body : SessionBody) (newId : string) : Response * Store :=
  try_catch st (respond 500 (Message "Failed to create interview session"))
    (if negb (truthy (b_interviewType body)) || negb (truthy (b_startTime body))
        || negb (truthy (b_endTime body))
     then Some (respond 400 (Message "All required fields must be provided"), st)
     else
       ty ← b_interviewType body;
       t0 ← b_startTime body;
       t1 ← b_endTime body;
       owner ← (if truthy (b_userId body) then b_userId body
                else id <$> requser);
       startDate ← parseDate t0;
       endDate ← parseDate t1;
       let s := newSession owner ty startDate endDate in
       Some (respond 201 (SessionData s), save_session newId s st)).

(** The permission test shared by reading and updating a session:
    [user.role !== "admin" && user.role !== "interviewer" &&
     session.userId.toString() !== req.user.id].
    [owner] is the string form of the session's owner reference; taking
    it throws when the reference is [null]. *)
Definition session_denied (user ru : User) (owner : option string)
    : option bool :=
  and_then (role user !== "admin")
    (and_then (role user !== "interviewer")
       (o ← owner; Some (o !== id ru))).

(** The same test in getInterviewSessionById, where the owner
    reference has been populated before the test:
    [session.userId.toString()] is then the text of a document, the
    listing of its fields, which differs from every id; taking it
    throws when the reference is [null]. *)
Definition session_denied_populated (user ru : User) (owner : option User)
    : option bool :=
  and_then (role user !== "admin")
    (and_then (role user !== "interviewer")
       (o ← owner; Some true)).

(** getInterviewSessionById (the same text in both versions of the
    controller). *)
Definition getInterviewSessionById (st : Store) (requser : option User)
    (sid : string) : Response * Store :=
  try_catch st (respond 500 (Message "Failed to retrieve interview session"))
    (match sessions st !! sid with
     | None => Some (respond 404 (Message "Interview session not found"), st)
     | Some session =>
         let owner := populate st (userId session) in
         ru ← requser;
         user ← (users st !! id ru);
         denied ← session_denied_populated user ru owner;
         if (denied : bool)
         then Some (respond 403 (Message "Permission denied"), st)
         else Some (respond 200 (SessionData session), st)
     end).

(** [findByIdAndUpdate(id, req.body)]: the fields present in the body
    replace the stored ones. *)
Definition apply_update (body : SessionBody) (t0 t1 : option Z)
    (s : InterviewSession) : InterviewSession :=
  {| userId := default (userId s) (b_userId body);
     interviewType := default (interviewType s) (b_interviewType body);
     startTime := default (startTime s) t0;
     endTime := default (endTime s) t1;
     status := default (status s) (b_status body);
     feedback := match b_feedback body with
                 | Some f => Some f
                 | None => feedback s
                 end;
     lastUpdatedBy := lastUpdatedBy s;
     lastUpdateTime := lastUpdateTime s |}.

(** The date of a body field that is present and truthy; the outer
    option is the exit with [Invalid ... format]. *)
Definition body_date (v : option string) : option (option Z) :=
  match v with
  | Some s =>
      if bool_decide (s ≠ "")
      then match parseDate s with
           | Some d => Some (Some d)
           | None => None
           end
      else Some None
  | None => Some None
  end.

Definition updateInterviewSession (st : Store) (requser : option User)
    (sid : string) (body : SessionBody) : Response * Store :=
  try_catch st (respond 500 (Message "Failed to update interview session"))
    (match sessions st !! sid with
     | None => Some (respond 404 (Message "Interview session not found"), st)
     | Some session =>
         ru ← requser;
         user ← (users st !! id ru);
         denied ← session_denied user ru (Some (userId session));
         if (denied : bool)
         then Some (respond 403 (Message "Permission denied"), st)
         else if truthy (b_feedback body) && (role user !== "admin")
                 && (role user !== "interviewer")
         then Some (respond 403 (Message "Only interviewers can provide feedback"), st)
         else
           match body_date (b_startTime body) with
           | None => Some (respond 400 (Message "Invalid start time format"), st)
           | Some t0 =>
               match body_date (b_endTime body) with
               | None => Some (respond 400 (Message "Invalid end time format"), st)
               | Some t1 =>
                   match t0, t1 with
                   | Some a, Some b =>
                       if (b <=? a)%Z
                       then Some (respond 400 (Message "End time must be after start time"), st)
                       else
                         let s := apply_update body t0 t1 session in
                         Some (respond 200 (SessionData s), save_session sid s st)
                   | _, _ =>
                       let s := apply_update body t0 t1 session in
                       Some (respond 200 (SessionData s), save_session sid s st)
                   end
               end
           end
     end).

(** The earlier updateInterviewSession, without the date checks; a
    date the store cannot cast makes the update throw. *)
Definition updateInterviewSession_basic (st : Store) (requser : option User)
    (sid : string) (body : SessionBody) : Response * Store :=
  try_catch st (respond 500 (Message "Failed to update interview session"))
    (match sessions st !! sid with
     | None => Some (respond 404 (Message "Interview session not found"), st)
     | Some session =>
         ru ← requser;
         user ← (users st !! id ru);
         denied ← session_denied user ru (Some (userId session));
         if (denied : bool)
         then Some (respond 403 (Message "Permission denied"), st)
         else if truthy (b_feedback body) && (role user !== "admin")
                 && (role user !== "interviewer")
         then Some (respond 403 (Message "Only interviewers can provide feedback"), st)
         else
           t0 ← (match b_startTime body with
                 | Some s => Some <$> parseDate s
                 | None => Some None
                 end);
           t1 ← (match b_endTime body with
                 | Some s => Some <$> parseDate s
                 | None => Some None
                 end);
           let s := apply_update body t0 t1 session in
           Some (respond 200 (SessionData s), save_session sid s st)
     end).

(** deleteInterviewSession (the same text in both versions). *)
Definition deleteInterviewSession (st : Store) (requser : option User)
    (sid : string) : Response * Store :=
  try_catch st (respond 500 (Message "Failed to delete interview session"))
    (match sessions st !! sid with
     | None => Some (respond 404 (Message "Interview session not found"), st)
     | Some session =>
         ru ← requser;
         user ← (users st !! id ru);
         if role user !== "admin"
         then Some (respond 403 (Message "Only administrators can delete sessions"), st)
         else Some (respond 200 (Message "Interview session deleted successfully"),
                    remove_session sid st)
     end).

End SessionController.

(** ** Submissions *)

Definition set_submissions (m : gmap string Submission) (st : Store) : Store :=
  {| users := users st; sessions := sessions st; submissions := m;
     questions := questions st; problems := problems st; tags := tags st;
     stats := stats st |}.

Definition createSubmission (st : Store) (requser : option User)
    (pid src lang newId : string) : Response * Store :=
  match requser with
  | None => (respond 401 (Message "Authentication required"), st)
  | Some ru =>
      let s := {| sub_problemId := pid; sub_userId := id ru; code := src;
                  language := lang; sub_status := None; result := None;
                  executionTime := None |} in
      (respond 201 (SubmissionData s),
       set_submissions (<[newId := s]> (submissions st)) st)
  end.

(** getSubmissionById: the owner reference is populated, and the test
    reads [submission.userId._id], which throws on [null]. *)
Definition getSubmissionById (st : Store) (requser : option User)
    (sid : string) : Response * Store :=
  try_catch st (respond 500 (Message "Failed to fetch submission"))
    (match requser with
     | None => Some (respond 401 (Message "Authentication required"), st)
     | Some ru =>
         match submissions st !! sid with
         | None => Some (respond 404 (Message "Submission not found"), st)
         | Some submission =>
             let owner := populate st (sub_userId submission) in
             denied ← and_then (role ru !== "admin")
                        (o ← owner; Some (_id o !== id ru));
             if (denied : bool)
             then Some (respond 403 (Message "Access denied to this submission"), st)
             else Some (respond 200 (SubmissionData submission), st)
         end
     end).

(** The admin test [!req.user || req.user.role !== "admin"]. *)
Definition not_admin (requser : option User) : bool :=
  match requser with
  | None => true
  | Some ru => role ru !== "admin"
  end.

Definition adminRequired : Response :=
  respond 403 (Message "Access denied. Admin privileges required.").

Record SubmissionUpdate := {
  up_status : option string;
  up_result : option string;
  up_executionTime : option Z;
}.

Definition updateSubmissionStatus (st : Store) (requser : option User)
    (sid : string) (body : SubmissionUpdate) : Response * Store :=
  if not_admin requser then (adminRequired, st)
  else
    match submissions st !! sid with
    | None => (respond 404 (Message "Submission not found"), st)
    | Some s =>
        let s' := {| sub_problemId := sub_problemId s;
                     sub_userId := sub_userId s; code := code s;
                     language := language s;
                     sub_status := match up_status body with
                                   | Some x => Some x | None => sub_status s end;
                     result := match up_result body with
                               | Some x => Some x | None => result s end;
                     executionTime := match up_executionTime body with
                                      | Some x => Some x
                                      | None => executionTime s end |} in
        (respond 200 (SubmissionData s'),
         set_submissions (<[sid := s']> (submissions st)) st)
    end.

Definition deleteSubmission (st : Store) (requser : option User)
    (sid : string) : Response * Store :=
  if not_admin requser then (adminRequired, st)
  else
    match submissions st !! sid with
    | None => (respond 404 (Message "Submission not found"), st)
    | Some _ =>
        (respond 200 (Message "Submission deleted successfully"),
         set_submissions (delete sid (submissions st)) st)
    end.

(** ** Interview questions *)

Definition set_questions (m : gmap string InterviewQuestion) (st : Store)
    : Store :=
  {| users := users st; sessions := sessions st;
     submissions := submissions st; questions := m;
     problems := problems st; tags := tags st; stats := stats st |}.

(** checkSessionParticipant: the placeholder of the source. *)
Definition checkSessionParticipant {A} (sessionId : A) (userId : string)
    : bool := true.

Definition getInterviewQuestionById (st : Store) (requser : option User)
    (qid : string) : Response * Store :=
  match requser with
  | None => (respond 401 (Message "Authentication required"), st)
  | Some ru =>
      match questions st !! qid with
      | None => (respond 404 (Message "Interview question not found"), st)
      | Some q =>
          let isParticipant :=
            checkSessionParticipant (sessions st !! session_id q) (id ru) in
          if (role ru !== "admin") && negb isParticipant
          then (respond 403 (Message "Access denied to this question"), st)
          else (respond 200 (QuestionData q), st)
      end
  end.

Definition set_submittedAnswer (a : option string) (q : InterviewQuestion)
    : InterviewQuestion :=
  {| session_id := session_id q; question := question q;
     submittedAnswer := a; q_feedback := q_feedback q; answer := answer q |}.

Definition submitAnswer (st : Store) (requser : option User)
    (qid : string) (submitted : option string) : Response * Store :=
  match requser with
  | None => (respond 401 (Message "Authentication required"), st)
  | Some ru =>
      match questions st !! qid with
      | None => (respond 404 (Message "Interview question not found"), st)
      | Some q =>
          let isParticipant :=
            checkSessionParticipant (sessions st !! session_id q) (id ru) in
          if negb isParticipant
          then (respond 403
                  (Message "Access denied to submit answer for this question"), st)
          else
            let q' := set_submittedAnswer submitted q in
            (respond 200 (QuestionData q'),
             set_questions (<[qid := q']> (questions st)) st)
      end
  end.

Definition provideFeedback (st : Store) (requser : option User)
    (qid : string) (fb ans : option string) : Response * Store :=
  if not_admin requser then (adminRequired, st)
  else
    match questions st !! qid with
    | None => (respond 404 (Message "Interview question not found"), st)
    | Some q =>
        let q' := {| session_id := session_id q; question := question q;
                     submittedAnswer := submittedAnswer q;
                     q_feedback := match fb with
                                   | Some x => Some x | None => q_feedback q end;
                     answer := match ans with
                               | Some x => Some x | None => answer q end |} in
        (respond 200 (QuestionData q'),
         set_questions (<[qid := q']> (questions st)) st)
    end.

Definition deleteInterviewQuestion (st : Store) (requser : option User)
    (qid : string) : Response * Store :=
  if not_admin requser then (adminRequired, st)
  else
    match questions st !! qid with
    | None => (respond 404 (Message "Interview question not found"), st)
    | Some _ =>
        (respond 200 (Message "Interview question deleted successfully"),
         set_questions (delete qid (questions st)) st)
    end.

(** ** User statistics *)

Section StatsController.

(** The field defaults of the UserStats schema, which [new UserStats]
    and an upsert fill in; the schema is not part of the controller. *)
Variable schemaDefaults : UserStats.

Definition set_stats (m : gmap string UserStats) (st : Store) : Store :=
  {| users := users st; sessions := sessions st;
     submissions := submissions st; questions := questions st;
     problems := problems st; tags := tags st; stats := m |}.

(** [new UserStats({ userId })]. *)
Definition defaultStats (uid : string) : UserStats :=
  {| stats_userId := uid;
     problemsSolved := problemsSolved schemaDefaults;
     averageScore := averageScore schemaDefaults;
     timeSpent := timeSpent schemaDefaults;
     studyPlan := studyPlan schemaDefaults;
     lastUpdated := lastUpdated schemaDefaults |}.

(** getUserStats reads no field of [req.user]. *)
Definition getUserStats (st : Store) (requser : option User)
    (uid : string) : Response * Store :=
  match stats st !! uid with
  | Some userStats => (respond 200 (StatsData userStats), st)
  | None =>
      let userStats := defaultStats uid in
      (respond 200 (StatsData userStats),
       set_stats (<[uid := userStats]> (stats st)) st)
  end.

(** The statistics fields a body of updateUserStats may carry.  The
    handler hands the whole body to the store; a body that names other
    fields of the record (a [userId]) is not covered by this record. *)
Record StatsUpdate := {
  u_problemsSolved : option float;
  u_averageScore : option float;
  u_timeSpent : option float;
  u_studyPlan : option string;
}.

(** [{ ...updates, lastUpdated: Date.now() }] applied to a record. *)
Definition apply_stats_update (updates : StatsUpdate) (now : Z)
    (s : UserStats) : UserStats :=
  {| stats_userId := stats_userId s;
     problemsSolved := default (problemsSolved s) (u_problemsSolved updates);
     averageScore := default (averageScore s) (u_averageScore updates);
     timeSpent := default (timeSpent s) (u_timeSpent updates);
     studyPlan := match u_studyPlan updates with
                  | Some p => Some p
                  | None => studyPlan s
                  end;
     lastUpdated := Some now |}.

(** updateUserStats: [findOneAndUpdate] with [upsert: true]. *)
Definition updateUserStats (st : Store) (requser : option User)
    (uid : string) (updates : StatsUpdate) (now : Z) : Response * Store :=
  let old := default (defaultStats uid) (stats st !! uid) in
  let userStats := apply_stats_update updates now old in
  (respond 200 (StatsData userStats),
   set_stats (<[uid := userStats]> (stats st)) st).

(** incrementProblemsSolved; [scoreIncrement] and [body_timeSpent]
    default to 0 when the body leaves them out. *)
Definition incrementProblemsSolved (st : Store) (requser : option User)
    (uid : string) (scoreIncrement body_timeSpent : option float) (now : Z)
    : Response * Store :=
  let scoreIncrement := default 0%float scoreIncrement in
  let timeSpent' := default 0%float body_timeSpent in
  let userStats :=
    match stats st !! uid with
    | None =>
        {| stats_userId := uid; problemsSolved := 1%float;
           averageScore := scoreIncrement; timeSpent := timeSpent';
           studyPlan := studyPlan schemaDefaults; lastUpdated := Some now |}
    | Some userStats =>
        let totalScoreBefore :=
          (averageScore userStats * problemsSolved userStats)%float in
        let newProblemCount := (problemsSolved userStats + 1)%float in
        let newAverageScore :=
          ((totalScoreBefore + scoreIncrement) / newProblemCount)%float in
        {| stats_userId := stats_userId userStats;
           problemsSolved := newProblemCount;
           averageScore := newAverageScore;
           timeSpent := (timeSpent userStats + timeSpent')%float;
           studyPlan := studyPlan userStats; lastUpdated := Some now |}
    end in
  (respond 200 (StatsData userStats),
   set_stats (<[uid := userStats]> (stats st)) st).

End StatsController.

(** ** Problem tags *)

Definition set_tags (l : list ProblemTag) (st : Store) : Store :=
  {| users := users st; sessions := sessions st;
     submissions := submissions st; questions := questions st;
     problems := problems st; tags := l; stats := stats st |}.

(** [ProblemTag.findOne({ problemId, tag })]. *)
Definition findTag (P t : string) (l : list ProblemTag) : option ProblemTag :=
  List.find (fun pt => bool_decide (problemId pt = P ∧ tag pt = t)) l.

Definition createProblemTag (st : Store) (requser : option User)
    (P t newId : string) : Response * Store :=
  if not_admin requser then (adminRequired, st)
  else
    match findTag P t (tags st) with
    | Some existingTag =>
        (respond 400 (Message "This tag is already assigned to the problem"), st)
    | None =>
        let newProblemTag := {| tag_id := newId; problemId := P; tag := t |} in
        (respond 201 (TagData newProblemTag),
         set_tags (tags st ++ [newProblemTag]) st)
    end.

(** ** Problems *)

Definition set_problems (m : gmap string Problem) (st : Store) : Store :=
  {| users := users st; sessions := sessions st;
     submissions := submissions st; questions := questions st;
     problems := m; tags := tags st; stats := stats st |}.

Definition createProblem (st : Store) (requser : option User)
    (ti de newId : string) : Response * Store :=
  try_catch st (respond 500 (Message "Error creating problem"))
    (ru ← requser;
     let p := {| title := ti; description := de; creatorId := _id ru;
                 approved := false |} in
     Some (respond 201 (ProblemData p),
           set_problems (<[newId := p]> (problems st)) st)).

(** getProblemById has no permission test. *)
Definition getProblemById (st : Store) (requser : option User)
    (pid : string) : Response * Store :=
  match problems st !! pid with
  | None => (respond 404 (Message "Problem not found"), st)
  | Some problem => (respond 200 (ProblemData problem), st)
  end.

Record ProblemUpdate := {
  up_title : option string;
  up_description : option string;
  up_creatorId : option string;
  up_approved : option bool;
}.

Definition apply_problem_update (updates : ProblemUpdate) (p : Problem)
    : Problem :=
  {| title := default (title p) (up_title updates);
     description := default (description p) (up_description updates);
     creatorId := default (creatorId p) (up_creatorId updates);
     approved := default (approved p) (up_approved updates) |}.

(** The test of updateProblem and deleteProblem:
    [problem.creatorId.toString() !== req.user._id.toString() &&
     req.user.role !== "admin"]. *)
Definition problem_denied (problem : Problem) (ru : User) : bool :=
  (creatorId problem !== _id ru) && (role ru !== "admin").

Definition updateProblem (st : Store) (requser : option User)
    (pid : string) (updates : ProblemUpdate) : Response * Store :=
  try_catch st (respond 500 (Message "Error updating problem"))
    (match problems st !! pid with
     | None => Some (respond 404 (Message "Problem not found"), st)
     | Some problem =>
         ru ← requser;
         if problem_denied problem ru
         then Some (respond 403 (Message "Not authorized to update this problem"), st)
         else
           let p := apply_problem_update updates problem in
           Some (respond 200 (ProblemData p),
                 set_problems (<[pid := p]> (problems st)) st)
     end).

Definition deleteProblem (st : Store) (requser : option User)
    (pid : string) : Response * Store :=
  try_catch st (respond 500 (Message "Error deleting problem"))
    (match problems st !! pid with
     | None => Some (respond 404 (Message "Problem not found"), st)
     | Some problem =>
         ru ← requser;
         if problem_denied problem ru
         then Some (respond 403 (Message "Not authorized to delete this problem"), st)
         else Some (respond 200 (Message "Problem deleted successfully"),
                    set_problems (delete pid (problems st)) st)
     end).

(** ** Users (admin functions) *)

Definition set_users (m : gmap string User) (st : Store) : Store :=
  {| users := m; sessions := sessions st; submissions := submissions st;
     questions := questions st; problems := problems st; tags := tags st;
     stats := stats st |}.

Definition set_role (r : string) (u : User) : User :=
  {| _id := _id u; username := username u; email := email u; role := r |}.

(** updateUserRole; [newRole] is [req.body.role], [None] when the body
    has no such field. *)
Definition updateUserRole (st : Store) (requser : option User)
    (uid : string) (newRole : option string) : Response * Store :=
  try_catch st (respond 500 (Message "Error updating user role"))
    (ru ← requser;
     if role ru !== "admin"
     then Some (respond 403 (Message "Admin access required"), st)
     else
       match newRole with
       | Some r =>
           if (r !== "user") && (r !== "admin")
           then Some (respond 400 (Message "Invalid role"), st)
           else
             match users st !! uid with
             | None => Some (respond 404 (Message "User not found"), st)
             | Some u =>
                 let updatedUser := set_role r u in
                 Some (respond 200 (UserData updatedUser),
                       set_users (<[uid := updatedUser]> (users st)) st)
             end
       | None => Some (respond 400 (Message "Invalid role"), st)
       end).

(** The store reads an id given as text without regard to the case of
    its hexadecimal digits, and prints ids in lower case:
    [castObjectId] is the printed form of the id that the text [s]
    denotes. *)
Definition lower_hex (c : Ascii.ascii) : Ascii.ascii :=
  (if Ascii.eqb c "A" then "a"
   else if Ascii.eqb c "B" then "b"
   else if Ascii.eqb c "C" then "c"
   else if Ascii.eqb c "D" then "d"
   else if Ascii.eqb c "E" then "e"
   else if Ascii.eqb c "F" then "f"
   else c)%char.

Fixpoint castObjectId (s : string) : string :=
  match s with
  | EmptyString => EmptyString
  | String c s' => String (lower_hex c) (castObjectId s')
  end.

(** deleteUser.  The guard compares the path parameter, as it was
    written, with [req.user._id.toString()]; [findByIdAndDelete] casts
    the parameter to an id.  (In the other handlers a path id stands
    for the id it denotes; here the two are kept apart, since the guard
    and the deletion read the same text differently.) *)
Definition deleteUser (st : Store) (requser : option User)
    (uid : string) : Response * Store :=
  try_catch st (respond 500 (Message "Error deleting user"))
    (ru ← requser;
     if role ru !== "admin"
     then Some (respond 403 (Message "Admin access required"), st)
     else if bool_decide (uid = _id ru)
     then Some (respond 400 (Message "Cannot delete your own account"), st)
     else
       match users st !! castObjectId uid with
       | None => Some (respond 404 (Message "User not found"), st)
       | Some deletedUser =>
           Some (respond 200 (Message "User deleted successfully"),
                 set_users (delete (castObjectId uid) (users st)) st)
       end).

(** ** Answers of the list and count handlers *)

(** A handler that answers with a list or a number either returns that
    value with its status code, or one of the plain responses. *)
Inductive Reply (A : Type) : Type :=
| Data (code : nat) (data : A)
| Refused (r : Response).
Arguments Data {A} code data.
Arguments Refused {A} r.

Definition replyCode {A} (r : Reply A) : nat :=
  match r with
  | Data c _ => c
  | Refused r => statusCode r
  end.

(** [a === b] on strings. *)
Definition strict_eq (a b : string) : bool := bool_decide (a = b).
Infix "===" := strict_eq (at level 70, no associativity).

(** ** Interview sessions: status and listing *)

Definition validStatuses : list string :=
  ["Pending"; "In Progress"; "Completed"].

Definition set_status (v : string) (who : option string) (when : option Z)
    (s : InterviewSession) : InterviewSession :=
  {| userId := userId s; interviewType := interviewType s;
     startTime := startTime s; endTime := endTime s; status := v;
     feedback := feedback s; lastUpdatedBy := who; lastUpdateTime := when |}.

(** updateSessionStatus; [now] is [new Date()]. *)
Definition updateSessionStatus (st : Store) (requser : option User)
    (sid : string) (newStatus : option string) (now : Z) : Response * Store :=
  try_catch st (respond 500 (Message "Failed to update session status"))
    (if negb (truthy newStatus)
     then Some (respond 400 (Message "Status is required"), st)
     else
       v ← newStatus;
       if negb (bool_decide (v ∈ validStatuses))
       then Some (respond 400 (Message "Invalid status value"), st)
       else
         match sessions st !! sid with
         | None => Some (respond 404 (Message "Interview session not found"), st)
         | Some session =>
             ru ← requser;
             user ← (users st !! id ru);
             if (role user !== "admin") && (role user !== "interviewer")
             then Some (respond 403
                          (Message "Only interviewers can update session status"), st)
             else
               let s := set_status v (Some (id ru)) (Some now) session in
               Some (respond 200 (SessionData s), save_session sid s st)
         end).

(** The earlier updateSessionStatus: one status test, and no record of
    who made the change. *)
Definition updateSessionStatus_basic (st : Store) (requser : option User)
    (sid : string) (newStatus : option string) : Response * Store :=
  try_catch st (respond 500 (Message "Failed to update session status"))
    (match newStatus with
     | None => Some (respond 400 (Message "Invalid status value"), st)
     | Some v =>
         if negb (bool_decide (v ∈ validStatuses))
         then Some (respond 400 (Message "Invalid status value"), st)
         else
           match sessions st !! sid with
           | None => Some (respond 404 (Message "Interview session not found"), st)
           | Some session =>
               ru ← requser;
               user ← (users st !! id ru);
               if (role user !== "admin") && (role user !== "interviewer")
               then Some (respond 403
                            (Message "Only interviewers can update session status"), st)
               else
                 let s := set_status v (lastUpdatedBy session)
                            (lastUpdateTime session) session in
                 Some (respond 200 (SessionData s), save_session sid s st)
           end
     end).

(** [req.query] of getAllInterviewSessions. *)
Record SessionQuery := {
  q_userId : option string;
  q_status : option string;
  q_interviewType : option string;
}.

(** The [query] object handed to [InterviewSession.find]. *)
Record SessionFilter := {
  f_userId : option string;
  f_status : option string;
  f_interviewType : option string;
}.

Definition if_truthy (v : option string) : option string :=
  if truthy v then v else None.

(** The role-based part and the optional filters of the query. *)
Definition session_filter (user ru : User) (q : SessionQuery) : SessionFilter :=
  {| f_userId :=
       if (role user === "admin") || (role user === "interviewer")
       then if_truthy (q_userId q)
       else Some (id ru);
     f_status := if_truthy (q_status q);
     f_interviewType := if_truthy (q_interviewType q) |}.

Definition field_matches (want : option string) (have : string) : bool :=
  match want with
  | Some v => bool_decide (have = v)
  | None => true
  end.

Definition session_matches (f : SessionFilter) (s : InterviewSession) : bool :=
  field_matches (f_userId f) (userId s)
  && field_matches (f_status f) (status s)
  && field_matches (f_interviewType f) (interviewType s).

(** [InterviewSession.find(query)]: the documents with their ids. *)
Definition find_sessions (f : SessionFilter) (st : Store)
    : list (string * InterviewSession) :=
  filter (λ kv, session_matches f kv.2 = true) (map_to_list (sessions st)).

(** [.sort({ startTime: -1 })], as an insertion sort; sessions with
    the same start time keep the order of the collection. *)
Fixpoint insert_by_startTime (x : string * InterviewSession)
    (l : list (string * InterviewSession)) : list (string * InterviewSession) :=
  match l with
  | [] => [x]
  | y :: l' =>
      if (startTime y.2 <=? startTime x.2)%Z
      then x :: y :: l'
      else y :: insert_by_startTime x l'
  end.

Definition sort_startTime_desc (l : list (string * InterviewSession))
    : list (string * InterviewSession) :=
  foldr insert_by_startTime [] l.

(** A listed session with its populated owner. *)
Record PopulatedSession := {
  ps_id : string;
  ps_session : InterviewSession;
  ps_owner : option User;
}.

Definition populate_session (st : Store) (kv : string * InterviewSession)
    : PopulatedSession :=
  {| ps_id := kv.1; ps_session := kv.2;
     ps_owner := populate st (userId kv.2) |}.

(** The earlier getAllInterviewSessions, without paging. *)
Definition getAllInterviewSessions_basic (st : Store) (requser : option User)
    (q : SessionQuery) : Reply (list PopulatedSession) :=
  default (Refused (respond 500 (Message "Failed to retrieve interview sessions")))
    (ru ← requser;
     user ← (users st !! id ru);
     let query := session_filter user ru q in
     Some (Data 200
             (populate_session st <$> sort_startTime_desc (find_sessions query st)))).

(** [x || d] on numbers: 0 and NaN are falsy. *)
Definition num_or (x d : float) : float :=
  if PrimFloat.is_nan x || (x =? 0)%float then d else x.

(** The page of getAllInterviewSessions; the answer's [totalPages] is
    left out. *)
Record SessionPage := {
  count : nat;
  totalCount : nat;
  currentPage : float;
  data : list PopulatedSession;
}.

(** getAllInterviewSessions.  [page] and [limit] are the values of
    [parseInt(req.query.page)] and [parseInt(req.query.limit)];
    [paginate skip limit l] is what the store returns for
    [.skip(skip).limit(limit)] on the sorted matches [l], [None] when
    it rejects the numbers. *)
Definition getAllInterviewSessions
    (paginate : float → float → list (string * InterviewSession)
                → option (list (string * InterviewSession)))
    (st : Store) (requser : option User) (q : SessionQuery)
    (page limit : float) : Reply SessionPage :=
  default (Refused (respond 500 (Message "Failed to retrieve interview sessions")))
    (ru ← requser;
     match users st !! id ru with
     | None => Some (Refused (respond 404 (Message "User not found")))
     | Some user =>
         let query := session_filter user ru q in
         if truthy (q_status q)
            && negb (bool_decide (default "" (q_status q) ∈ validStatuses))
         then Some (Refused (respond 400 (Message "Invalid status filter")))
         else
           let page := num_or page 1 in
           let limit := num_or limit 10 in
           let skip := ((page - 1) * limit)%float in
           let found := sort_startTime_desc (find_sessions query st) in
           sessions ← paginate skip limit found;
           Some (Data 200
                   {| count := length sessions;
                      totalCount := length found;
                      currentPage := page;
                      data := populate_session st <$> sessions |})
     end).

(** ** Submissions: listing *)

(** [bySubmittedAt] is the order [.sort({ submittedAt: -1 })] gives,
    a matter of the store. *)
Definition getAllSubmissions
    (bySubmittedAt : list (string * Submission) → list (string * Submission))
    (st : Store) (requser : option User) : Reply (list (string * Submission)) :=
  if not_admin requser then Refused adminRequired
  else Data 200 (bySubmittedAt (map_to_list (submissions st))).


Definition getSubmissionsByProblemId
    (bySubmittedAt : list (string * Submission) → list (string * Submission))
    (st : Store) (requser : option User) (pid : string)
    : Reply (list (string * Submission)) :=
  if not_admin requser then Refused adminRequired
  else Data 200 (bySubmittedAt
                   (filter (λ kv, sub_problemId kv.2 = pid)
                      (map_to_list (submissions st)))).

(** ** Interview questions: creating, listing, deleting by session *)

Definition createInterviewQuestion (st : Store) (requser : option User)
    (sid text newId : string) : Response * Store :=
  if not_admin requser then (adminRequired, st)
  else
    let q := {| session_id := sid; question := text; submittedAnswer := None;
                q_feedback := None; answer := None |} in
    (respond 201 (QuestionData q),
     set_questions (<[newId := q]> (questions st)) st).

Definition getQuestionsBySessionId (st : Store) (requser : option User)
    (sid : string) : Reply (list (string * InterviewQuestion)) :=
  match requser with
  | None => Refused (respond 401 (Message "Authentication required"))
  | Some ru =>
      let isParticipant := checkSessionParticipant sid (id ru) in
      if (role ru !== "admin") && negb isParticipant
      then Refused (respond 403
                      (Message "Access denied to this session's questions"))
      else Data 200 (filter (λ kv, session_id kv.2 = sid)
                       (map_to_list (questions st)))
  end.

(** deleteQuestionsBySessionId answers with [deletedCount]. *)
Definition deleteQuestionsBySessionId (st : Store) (requser : option User)
    (sid : string) : Reply nat * Store :=
  if not_admin requser then (Refused adminRequired, st)
  else
    (Data 200
       (size (filter (λ kv : string * InterviewQuestion,
                        session_id kv.2 = sid) (questions st))),
     set_questions
       (filter (λ kv : string * InterviewQuestion, session_id kv.2 ≠ sid)
          (questions st)) st).

(** ** User statistics: the study plan *)

(** updateStudyPlan: an upsert of [studyPlan] and [lastUpdated]. *)
Definition updateStudyPlan (schemaDefaults : UserStats) (st : Store)
    (requser : option User) (uid : string) (plan : option string) (now : Z)
    : Response * Store :=
  if negb (truthy plan)
  then (respond 400 (Message "Study plan is required"), st)
  else
    let old := default (defaultStats schemaDefaults uid) (stats st !! uid) in
    let userStats :=
      {| stats_userId := stats_userId old;
         problemsSolved := problemsSolved old;
         averageScore := averageScore old;
         timeSpent := timeSpent old;
         studyPlan := plan;
         lastUpdated := Some now |} in
    (respond 200 (StatsData userStats),
     set_stats (<[uid := userStats]> (stats st)) st).

(** ** Problem tags: reading and deleting *)

Definition getTagsByProblemId (st : Store) (P : string) : Reply (list string) :=
  Data 200 (tag <$> filter (λ pt, problemId pt = P) (tags st)).

(** getProblemsByTag of the tag controller: the tagged problems,
    [None] where the tag's problem no longer exists. *)
Definition getProblemsByTag (st : Store) (t : string)
    : Reply (list (option Problem)) :=
  Data 200 ((λ pt, problems st !! problemId pt)
              <$> filter (λ pt, tag pt = t) (tags st)).

(** [findByIdAndDelete] on the tag collection removes one record. *)
Fixpoint remove_first_tag (tid : string) (l : list ProblemTag)
    : list ProblemTag :=
  match l with
  | [] => []
  | pt :: l' =>
      if bool_decide (tag_id pt = tid) then l'
      else pt :: remove_first_tag tid l'
  end.

Definition deleteProblemTag (st : Store) (requser : option User)
    (tid : string) : Response * Store :=
  if not_admin requser then (adminRequired, st)
  else
    match List.find (λ pt, bool_decide (tag_id pt = tid)) (tags st) with
    | None => (respond 404 (Message "Problem tag not found"), st)
    | Some deletedTag =>
        (respond 200 (Message "Problem tag deleted successfully"),
         set_tags (remove_first_tag tid (tags st)) st)
    end.

Definition deleteTagsByProblemId (st : Store) (requser : option User)
    (P : string) : Reply nat * Store :=
  if not_admin requser then (Refused adminRequired, st)
  else
    (Data 200 (length (filter (λ pt, problemId pt = P) (tags st))),
     set_tags (filter (λ pt, problemId pt ≠ P) (tags st)) st).

(** ** Problems: approval and bulk deletion *)

Definition set_approved (p : Problem) : Problem :=
  {| title := title p; description := description p;
     creatorId := creatorId p; approved := true |}.

Definition approveProblem (st : Store) (requser : option User)
    (pid : string) : Response * Store :=
  try_catch st (respond 500 (Message "Error approving problem"))
    (ru ← requser;
     if role ru !== "admin"
     then Some (respond 403 (Message "Admin access required"), st)
     else
       match problems st !! pid with
       | None => Some (respond 404 (Message "Problem not found"), st)
       | Some problem =>
           let p := set_approved problem in
           Some (respond 200 (ProblemData p),
                 set_problems (<[pid := p]> (problems st)) st)
       end).

(** bulkDeleteProblems; [problemIds] is [None] when the body has no
    array under that name.  The answer carries [deletedCount]. *)
Definition bulkDeleteProblems (st : Store) (requser : option User)
    (problemIds : option (list string)) : Reply nat * Store :=
  match requser with
  | None => (Refused (respond 500 (Message "Error deleting problems")), st)
  | Some ru =>
      if role ru !== "admin"
      then (Refused (respond 403 (Message "Admin access required")), st)
      else
        match problemIds with
        | None | Some [] =>
            (Refused (respond 400 (Message "Valid problem IDs are required")), st)
        | Some ids =>
            (Data 200
               (size (filter (λ kv : string * Problem, kv.1 ∈ ids)
                        (problems st))),
             set_problems
               (filter (λ kv : string * Problem, kv.1 ∉ ids) (problems st)) st)
        end
  end.

(** ** Users: reading *)

Definition getUserById (st : Store) (requser : option User) (uid : string)
    : Response :=
  default (respond 500 (Message "Error fetching user"))
    (ru ← requser;
     if role ru !== "admin"
     then Some (respond 403 (Message "Admin access required"))
     else
       match users st !! uid with
       | None => Some (respond 404 (Message "User not found"))
       | Some user => Some (respond 200 (UserData user))
       end).

Definition getCurrentUser (st : Store) (requser : option User) : Response :=
  default (respond 500 (Message "Error fetching user profile"))
    (ru ← requser;
     match users st !! _id ru with
     | None => Some (respond 404 (Message "User not found"))
     | Some user => Some (respond 200 (UserData user))
     end).

(** ** Sample data *)

Module Sample.

Definition root : User :=
  {| _id := "a1"; username := "root"; email := "root@cm.io"; role := "admin" |}.
Definition alice : User :=
  {| _id := "u1"; username := "alice"; email := "alice@cm.io"; role := "user" |}.
Definition bob : User :=
  {| _id := "u2"; username := "bob"; email := "bob@cm.io"; role := "user" |}.
Definition ivy : User :=
  {| _id := "i1"; username := "ivy"; email := "ivy@cm.io";
     role := "interviewer" |}.

(** Alice's session, submission and problem. *)
Definition session1 : InterviewSession :=
  {| userId := "u1"; interviewType := "Technical"; startTime := 100;
     endTime := 200; status := "Pending"; feedback := None;
     lastUpdatedBy := None; lastUpdateTime := None |}.
Definition submission1 : Submission :=
  {| sub_problemId := "p1"; sub_userId := "u1"; code := "return 1";
     language := "js"; sub_status := None; result := None;
     executionTime := None |}.
Definition question1 : InterviewQuestion :=
  {| session_id := "s1"; question := "Reverse a list";
     submittedAnswer := None; q_feedback := None; answer := None |}.
Definition problem1 : Problem :=
  {| title := "Two Sum"; description := "Find two numbers";
     creatorId := "u1"; approved := false |}.
Definition tag1 : ProblemTag :=
  {| tag_id := "t1"; problemId := "p1"; tag := "dp" |}.

Definition store : Store :=
  {| users := <["a1" := root]> (<["u1" := alice]> (<["u2" := bob]>
                (<["i1" := ivy]> ∅)));
     sessions := <["s1" := session1]> ∅;
     submissions := <["sub1" := submission1]> ∅;
     questions := <["q1" := question1]> ∅;
     problems := <["p1" := problem1]> ∅;
     tags := [tag1];
     stats := ∅ |}.

(** A date parser that knows two dates. *)
Definition parseDate (s : string) : option Z :=
  if bool_decide (s = "2025-01-01T10:00") then Some 1000%Z
  else if bool_decide (s = "2025-01-01T11:00") then Some 2000%Z
  else None.

Definition noBody : SessionBody :=
  {| b_interviewType := None; b_startTime := None; b_endTime := None;
     b_userId := None; b_status := None; b_feedback := None |}.

(** A complete body for a new session, with the given [userId]. *)
Definition createBody (owner : option string) : SessionBody :=
  {| b_interviewType := Some "Technical";
     b_startTime := Some "2025-01-01T10:00";
     b_endTime := Some "2025-01-01T11:00";
     b_userId := owner; b_status := None; b_feedback := None |}.

Definition noProblemUpdate : ProblemUpdate :=
  {| up_title := None; up_description := None; up_creatorId := None;
     up_approved := None |}.

Definition noSubmissionUpdate : SubmissionUpdate :=
  {| up_status := None; up_result := None; up_executionTime := None |}.

Definition zeroStats : UserStats :=
  {| stats_userId := ""; problemsSolved := 0; averageScore := 0;
     timeSpent := 0; studyPlan := None; lastUpdated := None |}.

Definition noStatsUpdate : StatsUpdate :=
  {| u_problemsSolved := None; u_averageScore := None; u_timeSpent := None;
     u_studyPlan := None |}.

End Sample.

(** An administrator whose id is a 24-digit hexadecimal ObjectId. *)
Module HexSample.

Definition admin : User :=
  {| _id := "64b7f0c2a1d3e4f5a6b7c8d9"; username := "root";
     email := "root@cm.io"; role := "admin" |}.

Definition store : Store :=
  {| users := <["64b7f0c2a1d3e4f5a6b7c8d9" := admin]> ∅;
     sessions := ∅; submissions := ∅; questions := ∅; problems := ∅;
     tags := []; stats := ∅ |}.

(** The administrator's own id, written with capital digits. *)
Definition capitals : string := "64B7F0C2A1D3E4F5A6B7C8D9".

End HexSample.

(** ** Store invariant *)

(** Every user document is filed under its own [_id]. *)
Definition users_keyed (st : Store) : Prop :=
  map_Forall (λ k u, _id u = k) (users st).

(** The tag collection holds a record for the pair [(P, t)]. *)
Definition has_tag (P t : string) (l : list ProblemTag) : Prop :=
  ∃ pt, pt ∈ l ∧ problemId pt = P ∧ tag pt = t.

(** Every stored session has one of the three statuses. *)
Definition statuses_valid (st : Store) : Prop :=
  map_Forall (λ _ s, status s ∈ validStatuses) (sessions st).

(** No two tag records carry the same [(problemId, tag)] pair. *)
Definition tags_unique (st : Store) : Prop :=
  NoDup ((λ pt, (problemId pt, tag pt)) <$> tags st).

(** Listed sessions in descending order of their start time. *)
Definition later_first (a b : string * InterviewSession) : Prop :=
  (startTime b.2 ≤ startTime a.2)%Z.

(** The question record provideFeedback stores. *)
Definition with_feedback (fb ans : option string) (q : InterviewQuestion)
    : InterviewQuestion :=
  {| session_id := session_id q; question := question q;
     submittedAnswer := submittedAnswer q;
     q_feedback := match fb with Some x => Some x | None => q_feedback q end;
     answer := match ans with Some x => Some x | None => answer q end |}.

(** [st'] differs from [st] at most in the statistics record of
    [uid]. *)
Definition only_stats_of (uid : string) (st st' : Store) : Prop :=
  users st' = users st ∧ sessions st' = sessions st
  ∧ submissions st' = submissions st ∧ questions st' = questions st
  ∧ problems st' = problems st ∧ tags st' = tags st
  ∧ ∀ uid', uid' ≠ uid → stats st' !! uid' = stats st !! uid'.

(** ** Basic facts *)

Lemma strict_ne_true (a b : string) : a ≠ b → (a !== b) = true.
Proof. intros H. unfold strict_ne. by apply bool_decide_eq_true. Qed.

Lemma strict_ne_false (a b : string) : a = b → (a !== b) = false.
Proof. intros H. unfold strict_ne. apply bool_decide_eq_false. tauto. Qed.

Lemma not_admin_true (u : User) :
  role u ≠ "admin" → not_admin (Some u) = true.
Proof. intros H. simpl. by apply strict_ne_true. Qed.

Lemma not_admin_false (u : User) :
  role u = "admin" → not_admin (Some u) = false.
Proof. intros H. simpl. by apply strict_ne_false. Qed.

Lemma session_denied_admin (u ru : User) (owner : option string) :
  role u = "admin" → session_denied u ru owner = Some false.
Proof. intros H. unfold session_denied. by rewrite strict_ne_false. Qed.

Lemma session_denied_populated_admin (u ru : User) (owner : option User) :
  role u = "admin" → session_denied_populated u ru owner = Some false.
Proof. intros H. unfold session_denied_populated. by rewrite strict_ne_false. Qed.

Lemma session_denied_populated_other (u ru o : User) :
  role u ≠ "admin" → role u ≠ "interviewer" →
  session_denied_populated u ru (Some o) = Some true.
Proof.
  intros Ha Hi. unfold session_denied_populated.
  by rewrite !strict_ne_true.
Qed.

Lemma session_denied_interviewer (u ru : User) (owner : option string) :
  role u = "interviewer" → session_denied u ru owner = Some false.
Proof.
  intros H. unfold session_denied. rewrite H. reflexivity.
Qed.

Lemma session_denied_other (u ru : User) (o : string) :
  role u ≠ "admin" → role u ≠ "interviewer" → o ≠ id ru →
  session_denied u ru (Some o) = Some true.
Proof.
  intros Ha Hi Ho. unfold session_denied.
  rewrite !strict_ne_true by done. simpl. by rewrite strict_ne_true.
Qed.

Lemma authenticated_lookup (st : Store) (u : User) :
  authenticated st u → users st !! id u = Some u.
Proof. done. Qed.

(** What verifyToken attaches to the request is an authenticated
    identity. *)
Lemma verifyToken_authenticated (st : Store) (uid : string) (u : User) :
  users_keyed st → verifyToken st (Valid uid) = inr u → authenticated st u.
Proof.
  intros Hk Hv. unfold verifyToken in Hv.
  destruct (users st !! uid) as [u'|] eqn:Hu; [|discriminate].
  injection Hv as ->. unfold authenticated, id.
  by rewrite (Hk uid u Hu).
Qed.

(** A populated owner reference carries the id it was found under. *)
Lemma populate_id (st : Store) (ref : string) (o : User) :
  users_keyed st → populate st ref = Some o → _id o = ref.
Proof. intros Hk Ho. exact (Hk ref o Ho). Qed.

(** ** Administrators and the ownership tests *)

(** C1. An authenticated administrator passes every ownership test on
    an existing record, whoever owns it: reading and deleting a
    session, reading a submission, updating and deleting a problem all
    answer 200, never the 403 denial. *)
Theorem admin_passes_ownership_checks (st : Store) (u : User) :
  authenticated st u →
  role u = "admin" →
  (∀ sid s, sessions st !! sid = Some s →
     getInterviewSessionById st (Some u) sid
       = (respond 200 (SessionData s), st)
     ∧ statusCode (deleteInterviewSession st (Some u) sid).1 = 200)
  ∧ (∀ sid s, submissions st !! sid = Some s →
       getSubmissionById st (Some u) sid
         = (respond 200 (SubmissionData s), st))
  ∧ (∀ pid p updates, problems st !! pid = Some p →
       statusCode (updateProblem st (Some u) pid updates).1 = 200
       ∧ statusCode (deleteProblem st (Some u) pid).1 = 200).
Proof.
  intros Hauth Hadmin. split; [|split].
  - intros sid s H. split.
    + unfold getInterviewSessionById. rewrite H. simpl.
      rewrite (authenticated_lookup _ _ Hauth). simpl.
      by rewrite session_denied_populated_admin.
    + unfold deleteInterviewSession. rewrite H. simpl.
      rewrite (authenticated_lookup _ _ Hauth). simpl.
      by rewrite strict_ne_false.
  - intros sid s H. unfold getSubmissionById. rewrite H.
    by rewrite (strict_ne_false _ _ Hadmin).
  - intros pid p updates H. split.
    + unfold updateProblem, problem_denied. rewrite H. simpl.
      rewrite (strict_ne_false _ _ Hadmin). by rewrite andb_false_r.
    + unfold deleteProblem, problem_denied. rewrite H. simpl.
      rewrite (strict_ne_false _ _ Hadmin). by rewrite andb_false_r.
Qed.

Lemma admin_passes_ownership_checks_witness :
  authenticated Sample.store Sample.root
  ∧ role Sample.root = "admin"
  ∧ getInterviewSessionById Sample.store (Some Sample.root) "s1"
      = (respond 200 (SessionData Sample.session1), Sample.store)
  ∧ statusCode (deleteInterviewSession Sample.store (Some Sample.root) "s1").1
      = 200
  ∧ getSubmissionById Sample.store (Some Sample.root) "sub1"
      = (respond 200 (SubmissionData Sample.submission1), Sample.store)
  ∧ statusCode (updateProblem Sample.store (Some Sample.root) "p1"
                  Sample.noProblemUpdate).1 = 200
  ∧ statusCode (deleteProblem Sample.store (Some Sample.root) "p1").1 = 200.
Proof.
  assert (Ha : authenticated Sample.store Sample.root) by reflexivity.
  assert (Hr : role Sample.root = "admin") by reflexivity.
  destruct (admin_passes_ownership_checks Sample.store Sample.root Ha Hr)
    as (Hs & Hsub & Hp).
  destruct (Hs "s1" Sample.session1 eq_refl) as [Hread Hdel].
  destruct (Hp "p1" Sample.problem1 Sample.noProblemUpdate eq_refl)
    as [Hupd Hpdel].
  split; [exact Ha|]. split; [exact Hr|].
  split; [exact Hread|]. split; [exact Hdel|].
  split; [exact (Hsub "sub1" Sample.submission1 eq_refl)|].
  split; [exact Hupd | exact Hpdel].
Defined.

(** ** Deleting a session *)

(** C6. On an existing session, deleteInterviewSession answers 403 to
    every caller who is not an administrator, the owner included, and
    leaves the store as it was; for an administrator it removes the
    session and answers 200.  So the deletion succeeds exactly when the
    caller's role is admin. *)
Theorem delete_session_admin_only (st : Store) (u : User)
    (sid : string) (s : InterviewSession) :
  authenticated st u →
  sessions st !! sid = Some s →
  (role u ≠ "admin" →
     deleteInterviewSession st (Some u) sid
       = (respond 403 (Message "Only administrators can delete sessions"), st))
  ∧ (role u = "admin" →
       deleteInterviewSession st (Some u) sid
         = (respond 200 (Message "Interview session deleted successfully"),
            remove_session sid st)
       ∧ sessions (deleteInterviewSession st (Some u) sid).2 !! sid = None)
  ∧ (statusCode (deleteInterviewSession st (Some u) sid).1 = 200
       ↔ role u = "admin").
Proof.
  intros Hauth Hs.
  assert (Hna : role u ≠ "admin" →
     deleteInterviewSession st (Some u) sid
       = (respond 403 (Message "Only administrators can delete sessions"), st)).
  { intros Hr. unfold deleteInterviewSession. rewrite Hs. simpl.
    rewrite (authenticated_lookup _ _ Hauth). simpl.
    by rewrite strict_ne_true. }
  assert (Had : role u = "admin" →
     deleteInterviewSession st (Some u) sid
       = (respond 200 (Message "Interview session deleted successfully"),
          remove_session sid st)).
  { intros Hr. unfold deleteInterviewSession. rewrite Hs. simpl.
    rewrite (authenticated_lookup _ _ Hauth). simpl.
    by rewrite strict_ne_false. }
  split; [exact Hna|]. split.
  - intros Hr. split; [by apply Had|].
    rewrite (Had Hr). simpl. apply lookup_delete_eq.
  - split.
    + intros H200. destruct (decide (role u = "admin")) as [|Hr]; [done|].
      rewrite (Hna Hr) in H200. discriminate.
    + intros Hr. by rewrite (Had Hr).
Qed.

Lemma delete_session_admin_only_witness :
  authenticated Sample.store Sample.alice
  ∧ sessions Sample.store !! "s1" = Some Sample.session1
  ∧ userId Sample.session1 = id Sample.alice
  ∧ deleteInterviewSession Sample.store (Some Sample.alice) "s1"
      = (respond 403 (Message "Only administrators can delete sessions"),
         Sample.store).
Proof.
  assert (Ha : authenticated Sample.store Sample.alice) by reflexivity.
  assert (Hs : sessions Sample.store !! "s1" = Some Sample.session1)
    by reflexivity.
  destruct (delete_session_admin_only Sample.store Sample.alice "s1"
              Sample.session1 Ha Hs) as (Hna & _ & _).
  split; [exact Ha|]. split; [exact Hs|]. split; [reflexivity|].
  apply Hna. discriminate.
Defined.

(** ** Deleting a user *)

(** C10. The guard against deleting one's own account compares the
    path parameter as it was written, while the deletion casts it to an
    id.  An administrator who names their own id in the form the store
    prints is answered 400 and nothing changes.  Named in another
    spelling of the same id (capital hexadecimal digits), the guard
    does not fire: the answer is 200 and the administrator's own record
    is removed.  The caller's record is sure to survive only when the
    parameter is the printed id or denotes another id. *)
Theorem delete_user_removes_caller_by_other_spelling (st : Store) (u : User)
    (uid : string) :
  authenticated st u →
  role u = "admin" →
  (uid = id u →
     deleteUser st (Some u) uid
       = (respond 400 (Message "Cannot delete your own account"), st))
  ∧ (uid ≠ id u → castObjectId uid = id u →
     deleteUser st (Some u) uid
       = (respond 200 (Message "User deleted successfully"),
          set_users (delete (id u) (users st)) st)
     ∧ users (deleteUser st (Some u) uid).2 !! id u = None
     ∧ ¬ authenticated (deleteUser st (Some u) uid).2 u)
  ∧ (castObjectId uid ≠ id u →
     authenticated (deleteUser st (Some u) uid).2 u).
Proof.
  intros Hauth Hr. unfold deleteUser. simpl.
  rewrite (strict_ne_false _ _ Hr). split; [|split].
  - intros ->. by rewrite bool_decide_eq_true_2.
  - intros Hne Hcast. rewrite (bool_decide_eq_false_2 _ Hne).
    rewrite Hcast, (authenticated_lookup _ _ Hauth). simpl.
    split; [done|]. split; [apply lookup_delete_eq|].
    unfold authenticated. simpl. by rewrite lookup_delete_eq.
  - intros Hother. case_bool_decide; [done|].
    destruct (users st !! castObjectId uid); [|done].
    simpl. unfold authenticated. simpl.
    by rewrite lookup_delete_ne.
Qed.

Lemma delete_user_removes_caller_by_other_spelling_witness :
  authenticated HexSample.store HexSample.admin
  ∧ role HexSample.admin = "admin"
  ∧ HexSample.capitals ≠ id HexSample.admin
  ∧ castObjectId HexSample.capitals = id HexSample.admin
  ∧ deleteUser HexSample.store (Some HexSample.admin) HexSample.capitals
      = (respond 200 (Message "User deleted successfully"),
         set_users (delete (id HexSample.admin) (users HexSample.store))
           HexSample.store)
  ∧ users (deleteUser HexSample.store (Some HexSample.admin)
             HexSample.capitals).2 !! id HexSample.admin = None.
Proof.
  assert (Ha : authenticated HexSample.store HexSample.admin) by reflexivity.
  assert (Hr : role HexSample.admin = "admin") by reflexivity.
  assert (Hne : HexSample.capitals ≠ id HexSample.admin) by discriminate.
  assert (Hc : castObjectId HexSample.capitals = id HexSample.admin)
    by reflexivity.
  destruct (delete_user_removes_caller_by_other_spelling HexSample.store
              HexSample.admin HexSample.capitals Ha Hr) as (_ & Hbug & _).
  destruct (Hbug Hne Hc) as (Hdel & Hgone & _).
  split; [exact Ha|]. split; [exact Hr|]. split; [exact Hne|].
  split; [exact Hc|]. split; [exact Hdel | exact Hgone].
Defined.

(** ** Callers who are neither administrators nor owners *)

(** C2, as stated, fails: an interviewer who does not own a session
    reads and updates it, and any caller reads a problem created by
    someone else. *)
Lemma interviewer_reads_foreign_session :
  authenticated Sample.store Sample.ivy
  ∧ role Sample.ivy ≠ "admin"
  ∧ sessions Sample.store !! "s1" = Some Sample.session1
  ∧ id Sample.ivy ≠ userId Sample.session1
  ∧ getInterviewSessionById Sample.store (Some Sample.ivy) "s1"
      = (respond 200 (SessionData Sample.session1), Sample.store)
  ∧ statusCode (updateInterviewSession Sample.parseDate Sample.store
                  (Some Sample.ivy) "s1" Sample.noBody).1 = 200
  ∧ authenticated Sample.store Sample.bob
  ∧ role Sample.bob ≠ "admin"
  ∧ problems Sample.store !! "p1" = Some Sample.problem1
  ∧ id Sample.bob ≠ creatorId Sample.problem1
  ∧ getProblemById Sample.store (Some Sample.bob) "p1"
      = (respond 200 (ProblemData Sample.problem1), Sample.store).
Proof.
  repeat split; try reflexivity; try discriminate.
Qed.

(** C2, amended.  For an authenticated caller who is not an
    administrator:
    - reading or updating a session owned by someone else answers 403
      unless the caller is an interviewer (for reading, when the
      owner's user record exists);
    - reading a submission of someone else answers 403 (when the
      owner's user record exists), and updating or deleting any
      submission answers 403;
    - updating or deleting a problem created by someone else answers
      403.
    In each case the store is left as it was. *)
Theorem non_owner_forbidden (parseDate : string → option Z)
    (st : Store) (u : User) :
  users_keyed st →
  authenticated st u →
  role u ≠ "admin" →
  (∀ sid s body, sessions st !! sid = Some s →
     role u ≠ "interviewer" → userId s ≠ id u →
     (is_Some (users st !! userId s) →
        getInterviewSessionById st (Some u) sid
          = (respond 403 (Message "Permission denied"), st))
     ∧ updateInterviewSession parseDate st (Some u) sid body
         = (respond 403 (Message "Permission denied"), st)
     ∧ updateInterviewSession_basic parseDate st (Some u) sid body
         = (respond 403 (Message "Permission denied"), st))
  ∧ (∀ sid s, submissions st !! sid = Some s →
       sub_userId s ≠ id u → is_Some (users st !! sub_userId s) →
       getSubmissionById st (Some u) sid
         = (respond 403 (Message "Access denied to this submission"), st))
  ∧ (∀ sid body,
       updateSubmissionStatus st (Some u) sid body = (adminRequired, st)
       ∧ deleteSubmission st (Some u) sid = (adminRequired, st))
  ∧ (∀ pid p updates, problems st !! pid = Some p →
       creatorId p ≠ id u →
       updateProblem st (Some u) pid updates
         = (respond 403 (Message "Not authorized to update this problem"), st)
       ∧ deleteProblem st (Some u) pid
           = (respond 403 (Message "Not authorized to delete this problem"), st)).
Proof.
  intros Hk Hauth Hna. split; [|split; [|split]].
  - intros sid s body Hs Hni Hown. split; [|split].
    + intros [o Ho].
      unfold getInterviewSessionById. rewrite Hs. simpl.
      rewrite (authenticated_lookup _ _ Hauth). simpl.
      unfold populate. rewrite Ho.
      by rewrite session_denied_populated_other.
    + unfold updateInterviewSession. rewrite Hs. simpl.
      rewrite (authenticated_lookup _ _ Hauth). simpl.
      by rewrite session_denied_other.
    + unfold updateInterviewSession_basic. rewrite Hs. simpl.
      rewrite (authenticated_lookup _ _ Hauth). simpl.
      by rewrite session_denied_other.
  - intros sid s Hs Hown [o Ho].
    unfold getSubmissionById. rewrite Hs.
    rewrite (strict_ne_true _ _ Hna). unfold populate. rewrite Ho. simpl.
    rewrite strict_ne_true; [done|].
    rewrite (populate_id st _ _ Hk Ho). exact Hown.
  - intros sid body. unfold updateSubmissionStatus, deleteSubmission.
    by rewrite (not_admin_true _ Hna).
  - intros pid p updates Hp Hown. unfold id in Hown.
    unfold updateProblem, deleteProblem, problem_denied. rewrite Hp. simpl.
    rewrite (strict_ne_true _ _ Hna).
    by rewrite (strict_ne_true _ _ Hown).
Qed.

Lemma non_owner_forbidden_witness :
  users_keyed Sample.store
  ∧ authenticated Sample.store Sample.bob
  ∧ role Sample.bob ≠ "admin"
  ∧ getInterviewSessionById Sample.store (Some Sample.bob) "s1"
      = (respond 403 (Message "Permission denied"), Sample.store)
  ∧ updateInterviewSession Sample.parseDate Sample.store (Some Sample.bob)
      "s1" Sample.noBody
      = (respond 403 (Message "Permission denied"), Sample.store)
  ∧ getSubmissionById Sample.store (Some Sample.bob) "sub1"
      = (respond 403 (Message "Access denied to this submission"),
         Sample.store)
  ∧ deleteSubmission Sample.store (Some Sample.bob) "sub1"
      = (adminRequired, Sample.store)
  ∧ deleteProblem Sample.store (Some Sample.bob) "p1"
      = (respond 403 (Message "Not authorized to delete this problem"),
         Sample.store).
Proof.
  assert (Hk : users_keyed Sample.store).
  { apply (bool_decide_unpack _). vm_compute. exact I. }
  assert (Ha : authenticated Sample.store Sample.bob) by reflexivity.
  assert (Hr : role Sample.bob ≠ "admin") by discriminate.
  destruct (non_owner_forbidden Sample.parseDate Sample.store Sample.bob
              Hk Ha Hr) as (Hs & Hsub & Hadm & Hp).
  assert (Hi : role Sample.bob ≠ "interviewer") by discriminate.
  assert (Ho : userId Sample.session1 ≠ id Sample.bob) by discriminate.
  destruct (Hs "s1" Sample.session1 Sample.noBody eq_refl Hi Ho)
    as (Hread & Hupd & _).
  assert (Hc : creatorId Sample.problem1 ≠ id Sample.bob) by discriminate.
  split; [exact Hk|]. split; [exact Ha|]. split; [exact Hr|].
  split; [apply Hread; by eexists|]. split; [exact Hupd|].
  split; [apply (Hsub "sub1" Sample.submission1 eq_refl);
            [discriminate | by eexists]|].
  split; [apply (Hadm "sub1" Sample.noSubmissionUpdate)|].
  apply (Hp "p1" Sample.problem1 Sample.noProblemUpdate eq_refl Hc).
Defined.

(** ** Submitting an answer *)

(** C3. The participant test is constantly true.  Hence submitting an
    answer to an existing question stores the answer and answers 200
    for every authenticated caller, never 403; the outcome does not
    depend on the caller at all, so the admin role adds nothing on this
    path. *)
Theorem submit_answer_never_forbidden :
  (∀ (A : Type) (sessionId : A) (userId : string),
     checkSessionParticipant sessionId userId = true)
  ∧ (∀ st u qid q submitted, questions st !! qid = Some q →
       submitAnswer st (Some u) qid submitted
         = (respond 200 (QuestionData (set_submittedAnswer submitted q)),
            set_questions
              (<[qid := set_submittedAnswer submitted q]> (questions st)) st)
       ∧ statusCode (submitAnswer st (Some u) qid submitted).1 ≠ 403)
  ∧ (∀ st u u' qid submitted,
       submitAnswer st (Some u) qid submitted
         = submitAnswer st (Some u') qid submitted).
Proof.
  split; [done|]. split.
  - intros st u qid q submitted Hq. unfold submitAnswer. rewrite Hq.
    simpl. split; [done | discriminate].
  - intros st u u' qid submitted. unfold submitAnswer.
    by destruct (questions st !! qid).
Qed.

Lemma submit_answer_never_forbidden_witness :
  questions Sample.store !! "q1" = Some Sample.question1
  ∧ role Sample.bob ≠ "admin"
  ∧ userId Sample.session1 ≠ id Sample.bob
  ∧ statusCode (submitAnswer Sample.store (Some Sample.bob) "q1"
                  (Some "fold")).1 = 200
  ∧ questions (submitAnswer Sample.store (Some Sample.bob) "q1"
                 (Some "fold")).2 !! "q1"
      = Some (set_submittedAnswer (Some "fold") Sample.question1).
Proof.
  destruct submit_answer_never_forbidden as (_ & Hsub & _).
  destruct (Hsub Sample.store Sample.bob "q1" Sample.question1 (Some "fold")
              eq_refl) as [Heq _].
  split; [reflexivity|]. split; [discriminate|]. split; [discriminate|].
  rewrite Heq. split; reflexivity.
Defined.

(** ** User statistics *)

(** C4. getUserStats and updateUserStats look at neither the caller's
    id nor the caller's role: for every caller and every [userId] of the
    path they answer 200, never 403.  getUserStats returns the stored
    record, or creates and stores the default one when there is none;
    updateUserStats upserts the record of that user. *)
Theorem user_stats_unrestricted (schemaDefaults : UserStats) (st : Store)
    (requser : option User) (uid : string) (updates : StatsUpdate) (now : Z) :
  statusCode (getUserStats schemaDefaults st requser uid).1 = 200
  ∧ (∀ s, stats st !! uid = Some s →
       getUserStats schemaDefaults st requser uid
         = (respond 200 (StatsData s), st))
  ∧ (stats st !! uid = None →
       getUserStats schemaDefaults st requser uid
         = (respond 200 (StatsData (defaultStats schemaDefaults uid)),
            set_stats (<[uid := defaultStats schemaDefaults uid]> (stats st)) st)
       ∧ stats (getUserStats schemaDefaults st requser uid).2 !! uid
           = Some (defaultStats schemaDefaults uid))
  ∧ statusCode (updateUserStats schemaDefaults st requser uid updates now).1
      = 200
  ∧ stats (updateUserStats schemaDefaults st requser uid updates now).2 !! uid
      = Some (apply_stats_update updates now
                (default (defaultStats schemaDefaults uid) (stats st !! uid))).
Proof.
  unfold getUserStats, updateUserStats.
  split; [|split; [|split; [|split]]].
  - by destruct (stats st !! uid).
  - by intros s ->.
  - intros ->. split; [done|]. simpl. apply lookup_insert_eq.
  - done.
  - simpl. apply lookup_insert_eq.
Qed.

Lemma user_stats_unrestricted_witness :
  id Sample.bob ≠ "u1"
  ∧ stats Sample.store !! "u1" = None
  ∧ stats (getUserStats Sample.zeroStats Sample.store (Some Sample.bob)
             "u1").2 !! "u1"
      = Some (defaultStats Sample.zeroStats "u1").
Proof.
  split; [discriminate|]. split; [reflexivity|].
  apply (user_stats_unrestricted Sample.zeroStats Sample.store
           (Some Sample.bob) "u1" Sample.noStatsUpdate 0).
  reflexivity.
Defined.

(** C7. Two calls of incrementProblemsSolved for a user without a stats
    record, with scores 10 and then 20, leave a record with
    [problemsSolved = 2] and [averageScore = 15].  In general a call
    that finds a record replaces [averageScore] by
    [(averageScore * problemsSolved + scoreIncrement) / (problemsSolved + 1)]
    and [problemsSolved] by [problemsSolved + 1], in double arithmetic. *)
Theorem increment_problems_solved_average (schemaDefaults : UserStats)
    (st : Store) (requser : option User) (uid : string) :
  (∀ t1 t2 now1 now2, stats st !! uid = None →
     let st1 := (incrementProblemsSolved schemaDefaults st requser uid
                   (Some 10%float) t1 now1).2 in
     let st2 := (incrementProblemsSolved schemaDefaults st1 requser uid
                   (Some 20%float) t2 now2).2 in
     ∃ s, stats st2 !! uid = Some s
          ∧ problemsSolved s = 2%float ∧ averageScore s = 15%float)
  ∧ (∀ s inc t now, stats st !! uid = Some s →
       ∃ s', stats (incrementProblemsSolved schemaDefaults st requser uid
                      (Some inc) t now).2 !! uid = Some s'
             ∧ problemsSolved s' = (problemsSolved s + 1)%float
             ∧ averageScore s'
                 = ((averageScore s * problemsSolved s + inc)
                    / (problemsSolved s + 1))%float).
Proof.
  split.
  - intros t1 t2 now1 now2 Hnone. unfold incrementProblemsSolved.
    rewrite Hnone. simpl. rewrite lookup_insert_eq. simpl.
    rewrite lookup_insert_eq. eexists. split; [reflexivity|].
    simpl. split; reflexivity.
  - intros s inc t now Hs. unfold incrementProblemsSolved.
    rewrite Hs. simpl. rewrite lookup_insert_eq. eexists.
    split; [reflexivity|]. simpl. split; reflexivity.
Qed.

Lemma increment_problems_solved_average_witness :
  stats Sample.store !! "u1" = None
  ∧ ∃ s, stats (incrementProblemsSolved Sample.zeroStats
                  (incrementProblemsSolved Sample.zeroStats Sample.store
                     (Some Sample.alice) "u1" (Some 10%float) None 1).2
                  (Some Sample.alice) "u1" (Some 20%float) None 2).2 !! "u1"
           = Some s
         ∧ problemsSolved s = 2%float ∧ averageScore s = 15%float.
Proof.
  split; [reflexivity|].
  apply (increment_problems_solved_average Sample.zeroStats Sample.store
           (Some Sample.alice) "u1").
  reflexivity.
Defined.

(** ** The owner of a new session *)

Lemma owner_or_else (v : option string) (u : User) :
  (if truthy v then v else id <$> Some u) = Some (or_else v (id u)).
Proof.
  destruct v as [s|]; simpl; [|done]. by case_bool_decide.
Qed.

Lemma truthy_Some (s : string) : s ≠ "" → truthy (Some s) = true.
Proof. intros H. simpl. by apply bool_decide_eq_true. Qed.

(** C5, as stated, fails: a body whose [userId] field is present but
    empty creates a session owned by the caller. *)
Lemma empty_userId_defaults_to_caller :
  b_userId (Sample.createBody (Some "")) = Some ""
  ∧ createInterviewSession Sample.parseDate Sample.store (Some Sample.bob)
      (Sample.createBody (Some "")) "s2"
      = (respond 201 (SessionData (newSession "u2" "Technical" 1000 2000)),
         save_session "s2" (newSession "u2" "Technical" 1000 2000)
           Sample.store)
  ∧ createInterviewSession_basic Sample.parseDate Sample.store
      (Some Sample.bob) (Sample.createBody (Some "")) "s2"
      = (respond 201 (SessionData (newSession "u2" "Technical" 1000 2000)),
         save_session "s2" (newSession "u2" "Technical" 1000 2000)
           Sample.store)
  ∧ id Sample.bob = "u2"
  ∧ id Sample.bob ≠ "".
Proof.
  repeat split; try reflexivity; discriminate.
Qed.

(** C5, amended.  For every caller, whatever the role, a well-formed
    createInterviewSession request creates a session owned by
    [userId || req.user.id]: by the supplied [userId] when it is
    present and non-empty, and by the caller when the body omits
    [userId] or gives an empty one.  No role test guards the choice.
    This holds for both versions of the controller. *)
Theorem create_session_owner (parseDate : string → option Z) (st : Store)
    (u : User) (body : SessionBody) (newId ty t0 t1 : string) (d0 d1 : Z) :
  b_interviewType body = Some ty → ty ≠ "" →
  b_startTime body = Some t0 → t0 ≠ "" →
  b_endTime body = Some t1 → t1 ≠ "" →
  parseDate t0 = Some d0 → parseDate t1 = Some d1 →
  let owner := or_else (b_userId body) (id u) in
  let s := newSession owner ty d0 d1 in
  ((d0 < d1)%Z → ty ∈ validInterviewTypes →
     createInterviewSession parseDate st (Some u) body newId
       = (respond 201 (SessionData s), save_session newId s st))
  ∧ createInterviewSession_basic parseDate st (Some u) body newId
      = (respond 201 (SessionData s), save_session newId s st)
  ∧ sessions (save_session newId s st) !! newId = Some s
  ∧ userId s = owner
  ∧ (∀ x, b_userId body = Some x → x ≠ "" → owner = x)
  ∧ (b_userId body = None ∨ b_userId body = Some "" → owner = id u).
Proof.
  intros Hty Hty0 Ht0 Ht00 Ht1 Ht10 Hd0 Hd1 owner s.
  split; [|split; [|split; [|split; [|split]]]].
  - intros Hlt Hvalid. unfold createInterviewSession.
    rewrite Hty, Ht0, Ht1, !truthy_Some by done. simpl.
    rewrite Hd0, Hd1.
    rewrite (proj2 (Z.leb_gt d1 d0)) by lia.
    rewrite bool_decide_eq_true_2 by done. simpl.
    change (Some (id u)) with (id <$> Some u).
    by rewrite owner_or_else.
  - unfold createInterviewSession_basic.
    rewrite Hty, Ht0, Ht1, !truthy_Some by done. simpl.
    change (Some (id u)) with (id <$> Some u).
    rewrite owner_or_else. simpl. by rewrite Hd0, Hd1.
  - simpl. apply lookup_insert_eq.
  - done.
  - intros x Hx Hne. unfold owner. rewrite Hx. simpl.
    by rewrite bool_decide_eq_true_2.
  - intros [Hx|Hx]; unfold owner; by rewrite Hx.
Qed.

Lemma create_session_owner_witness :
  role Sample.bob ≠ "admin"
  ∧ createInterviewSession Sample.parseDate Sample.store (Some Sample.bob)
      (Sample.createBody (Some "u1")) "s2"
      = (respond 201 (SessionData (newSession "u1" "Technical" 1000 2000)),
         save_session "s2" (newSession "u1" "Technical" 1000 2000)
           Sample.store).
Proof.
  split; [discriminate|].
  assert (Hv : "Technical" ∈ validInterviewTypes).
  { apply (bool_decide_unpack _). vm_compute. exact I. }
  assert (Hlt : (1000 < 2000)%Z) by reflexivity.
  assert (Hne : ∀ a (s : string), String a s ≠ "") by discriminate.
  destruct (create_session_owner Sample.parseDate Sample.store Sample.bob
              (Sample.createBody (Some "u1")) "s2"
              "Technical" "2025-01-01T10:00" "2025-01-01T11:00" 1000 2000
              eq_refl (Hne _ _) eq_refl (Hne _ _) eq_refl (Hne _ _)
              eq_refl eq_refl) as (Hcreate & _).
  exact (Hcreate Hlt Hv).
Defined.

(** ** Changing a role *)

(** C8. A role outside [user] and [admin] never reaches the store: the
    call leaves the store, and with it the stored role, unchanged, and
    an administrator gets the answer 400 "Invalid role".  The roles
    [interviewer] and [candidate] are among the rejected ones. *)
Theorem invalid_role_rejected (st : Store) (requser : option User)
    (uid : string) (newRole : option string) :
  newRole ≠ Some "user" → newRole ≠ Some "admin" →
  (updateUserRole st requser uid newRole).2 = st
  ∧ (∀ u, requser = Some u → role u = "admin" →
       updateUserRole st requser uid newRole
         = (respond 400 (Message "Invalid role"), st)).
Proof.
  intros Hu Ha.
  assert (Hbad : match newRole with
                 | Some r => (r !== "user") && (r !== "admin") = true
                 | None => True
                 end).
  { destruct newRole as [r|]; [|done].
    rewrite !strict_ne_true; [done|congruence..]. }
  split.
  - unfold updateUserRole. destruct requser as [u|]; [|done]. simpl.
    destruct (role u !== "admin"); [done|].
    destruct newRole as [r|]; [|done]. by rewrite Hbad.
  - intros u -> Hr. unfold updateUserRole. simpl.
    rewrite (strict_ne_false _ _ Hr).
    destruct newRole as [r|]; [|done]. by rewrite Hbad.
Qed.

Lemma invalid_role_rejected_witness :
  updateUserRole Sample.store (Some Sample.root) "u1" (Some "interviewer")
    = (respond 400 (Message "Invalid role"), Sample.store)
  ∧ updateUserRole Sample.store (Some Sample.root) "u1" (Some "candidate")
      = (respond 400 (Message "Invalid role"), Sample.store)
  ∧ users Sample.store !! "u1" = Some Sample.alice.
Proof.
  split; [|split; [|reflexivity]].
  - apply (invalid_role_rejected Sample.store (Some Sample.root) "u1"
             (Some "interviewer")) with (u := Sample.root);
      try reflexivity; discriminate.
  - apply (invalid_role_rejected Sample.store (Some Sample.root) "u1"
             (Some "candidate")) with (u := Sample.root);
      try reflexivity; discriminate.
Defined.

(** ** Problem tags *)

Lemma findTag_Some (P t : string) (l : list ProblemTag) :
  has_tag P t l → is_Some (findTag P t l).
Proof.
  intros (pt & Hin & HP & Ht). unfold findTag.
  induction l as [|x l IH]; [by apply not_elem_of_nil in Hin|].
  simpl. case_bool_decide as Hx; [by eexists|].
  apply elem_of_cons in Hin as [->|Hin]; [|by apply IH].
  by destruct Hx.
Qed.

Lemma findTag_None (P t : string) (l : list ProblemTag) :
  ¬ has_tag P t l → findTag P t l = None.
Proof.
  intros Hno. unfold findTag.
  induction l as [|x l IH]; [done|].
  simpl. case_bool_decide as Hx.
  - destruct Hno. exists x. split; [apply list_elem_of_here | done].
  - apply IH. intros (pt & Hin & Hpt). apply Hno.
    exists pt. split; [by apply list_elem_of_further | done].
Qed.

Lemma has_tag_dec (P t : string) (l : list ProblemTag) :
  has_tag P t l ∨ ¬ has_tag P t l.
Proof.
  destruct (findTag P t l) as [pt|] eqn:Hf.
  - left. unfold findTag in Hf. apply find_some in Hf as [Hin Hb].
    apply bool_decide_eq_true in Hb.
    exists pt. split; [by apply list_elem_of_In | done].
  - right. intros Hhas. apply findTag_Some in Hhas as [pt Hpt]. congruence.
Qed.

(** C9. For an administrator, creating a tag [(P, t)] that the store
    already holds is rejected with 400 and the store is unchanged, so
    no second record is inserted; creating a fresh pair answers 201 and
    appends exactly that record.  Hence a creation repeated right after
    the first one is always rejected. *)
Theorem duplicate_tag_rejected (st : Store) (u : User) (P t newId : string) :
  role u = "admin" →
  (has_tag P t (tags st) →
     createProblemTag st (Some u) P t newId
       = (respond 400 (Message "This tag is already assigned to the problem"),
          st))
  ∧ (¬ has_tag P t (tags st) →
       createProblemTag st (Some u) P t newId
         = (respond 201 (TagData {| tag_id := newId; problemId := P; tag := t |}),
            set_tags (tags st ++ [{| tag_id := newId; problemId := P;
                                     tag := t |}]) st))
  ∧ (∀ newId',
       let st1 := (createProblemTag st (Some u) P t newId).2 in
       createProblemTag st1 (Some u) P t newId'
         = (respond 400 (Message "This tag is already assigned to the problem"),
            st1)).
Proof.
  intros Hr.
  assert (Hdup : ∀ st' newId', has_tag P t (tags st') →
     createProblemTag st' (Some u) P t newId'
       = (respond 400 (Message "This tag is already assigned to the problem"),
          st')).
  { intros st' newId' Hhas. unfold createProblemTag.
    rewrite (not_admin_false _ Hr).
    by destruct (findTag_Some _ _ _ Hhas) as [pt ->]. }
  assert (Hnew : ¬ has_tag P t (tags st) →
     createProblemTag st (Some u) P t newId
       = (respond 201 (TagData {| tag_id := newId; problemId := P; tag := t |}),
          set_tags (tags st ++ [{| tag_id := newId; problemId := P;
                                   tag := t |}]) st)).
  { intros Hno. unfold createProblemTag.
    rewrite (not_admin_false _ Hr). by rewrite (findTag_None _ _ _ Hno). }
  split; [apply Hdup|]. split; [exact Hnew|].
  intros newId' st1. apply Hdup. unfold st1.
  destruct (has_tag_dec P t (tags st)) as [Hhas|Hno].
  - by rewrite (Hdup st newId Hhas).
  - rewrite (Hnew Hno). simpl.
    exists {| tag_id := newId; problemId := P; tag := t |}.
    split; [|done]. apply elem_of_app. right. apply list_elem_of_here.
Qed.

Lemma duplicate_tag_rejected_witness :
  role Sample.root = "admin"
  ∧ has_tag "p1" "dp" (tags Sample.store)
  ∧ createProblemTag Sample.store (Some Sample.root) "p1" "dp" "t2"
      = (respond 400 (Message "This tag is already assigned to the problem"),
         Sample.store)
  ∧ ¬ has_tag "p1" "graph" (tags Sample.store)
  ∧ statusCode (createProblemTag Sample.store (Some Sample.root)
                  "p1" "graph" "t2").1 = 201.
Proof.
  assert (Hr : role Sample.root = "admin") by reflexivity.
  assert (Hdp : has_tag "p1" "dp" (tags Sample.store)).
  { exists Sample.tag1. split; [apply list_elem_of_here | split; reflexivity]. }
  assert (Hno : ¬ has_tag "p1" "graph" (tags Sample.store)).
  { intros (pt & Hin & _ & Ht). simpl in Hin.
    apply list_elem_of_singleton in Hin. subst pt. discriminate Ht. }
  destruct (duplicate_tag_rejected Sample.store Sample.root "p1" "dp" "t2" Hr)
    as (Hdup & _ & _).
  destruct (duplicate_tag_rejected Sample.store Sample.root "p1" "graph" "t2" Hr)
    as (_ & Hnew & _).
  split; [exact Hr|]. split; [exact Hdp|]. split; [exact (Hdup Hdp)|].
  split; [exact Hno|]. by rewrite (Hnew Hno).
Defined.

(** * Further properties of the controllers *)

(** ** Changing the status of a session *)

Lemma valid_status_cases (v : string) :
  v ∈ validStatuses → v = "Pending" ∨ v = "In Progress" ∨ v = "Completed".
Proof.
  unfold validStatuses. intros H.
  repeat (apply elem_of_cons in H as [->|H]; [tauto|]).
  by apply elem_of_nil in H.
Qed.

Lemma valid_status_truthy (v : string) :
  v ∈ validStatuses → truthy (Some v) = true.
Proof.
  intros H. apply valid_status_cases in H as [->|[->| ->]]; reflexivity.
Qed.

(** X1. The status of an existing session can be changed only by an
    administrator or an interviewer: every other authenticated caller,
    the owner of the session included, is answered 403 and the store is
    left as it was, in both versions of updateSessionStatus. *)
Theorem update_status_requires_elevated_role (st : Store) (u : User)
    (sid : string) (s : InterviewSession) (v : string) (now : Z) :
  authenticated st u →
  sessions st !! sid = Some s →
  v ∈ validStatuses →
  role u ≠ "admin" → role u ≠ "interviewer" →
  updateSessionStatus st (Some u) sid (Some v) now
    = (respond 403 (Message "Only interviewers can update session status"), st)
  ∧ updateSessionStatus_basic st (Some u) sid (Some v)
      = (respond 403 (Message "Only interviewers can update session status"),
         st).
Proof.
  intros Hauth Hs Hv Ha Hi.
  unfold updateSessionStatus, updateSessionStatus_basic.
  rewrite (valid_status_truthy _ Hv). simpl.
  rewrite (bool_decide_eq_true_2 _ Hv). simpl. rewrite Hs. simpl.
  rewrite (authenticated_lookup _ _ Hauth). simpl.
  by rewrite !strict_ne_true.
Qed.

Lemma update_status_requires_elevated_role_witness :
  userId Sample.session1 = id Sample.alice
  ∧ updateSessionStatus Sample.store (Some Sample.alice) "s1"
      (Some "Completed") 5
      = (respond 403 (Message "Only interviewers can update session status"),
         Sample.store).
Proof.
  split; [reflexivity|].
  apply (update_status_requires_elevated_role Sample.store Sample.alice "s1"
           Sample.session1 "Completed" 5); try reflexivity; try discriminate.
  apply (bool_decide_unpack _). vm_compute. exact I.
Defined.

(** X2. updateSessionStatus checks the requested status before it
    looks at the session or the caller: a missing status or one outside
    Pending / In Progress / Completed is answered 400 with the store
    unchanged, for every caller and every session id, existing or not. *)
Theorem update_status_validates_first (st : Store) (requser : option User)
    (sid : string) (newStatus : option string) (now : Z) :
  (∀ v, newStatus = Some v → v ∉ validStatuses) →
  statusCode (updateSessionStatus st requser sid newStatus now).1 = 400
  ∧ (updateSessionStatus st requser sid newStatus now).2 = st
  ∧ updateSessionStatus_basic st requser sid newStatus
      = (respond 400 (Message "Invalid status value"), st).
Proof.
  intros Hbad. unfold updateSessionStatus, updateSessionStatus_basic.
  destruct newStatus as [v|]; [|done].
  specialize (Hbad v eq_refl).
  unfold truthy. destruct (bool_decide (v ≠ "")); simpl;
    rewrite ?(bool_decide_eq_false_2 _ Hbad); done.
Qed.

Lemma update_status_validates_first_witness :
  sessions Sample.store !! "nope" = None
  ∧ statusCode (updateSessionStatus Sample.store (Some Sample.root) "nope"
                  (Some "Done") 5).1 = 400.
Proof.
  split; [reflexivity|].
  apply (update_status_validates_first Sample.store (Some Sample.root) "nope"
           (Some "Done") 5).
  intros v [= <-]. apply (bool_decide_unpack _). vm_compute. exact I.
Defined.

Lemma statuses_valid_save (st : Store) (k : string) (s : InterviewSession) :
  statuses_valid st → status s ∈ validStatuses →
  statuses_valid (save_session k s st).
Proof.
  intros Hst Hs. unfold statuses_valid. simpl.
  by apply map_Forall_insert_2.
Qed.

Lemma statuses_valid_remove (st : Store) (k : string) :
  statuses_valid st → statuses_valid (remove_session k st).
Proof.
  intros Hst. unfold statuses_valid. simpl. by apply map_Forall_delete.
Qed.

Lemma pending_valid : "Pending" ∈ validStatuses.
Proof. apply list_elem_of_here. Qed.

(** Splits a handler into its paths. *)
Ltac handler_paths :=
  unfold try_catch, mbind, option_bind;
  repeat (simpl;
          match goal with
          | |- context [match ?x with _ => _ end] => destruct x eqn:?
          | |- context [if ?b then _ else _] => destruct b eqn:?
          end);
  simpl.

(** X3. The handlers that create a session, change its status or
    delete it keep every stored status within Pending / In Progress /
    Completed, whatever the caller and the request. *)
Theorem session_statuses_stay_valid (parseDate : string → option Z)
    (st : Store) (requser : option User) (sid newId : string)
    (newStatus : option string) (now : Z) (body : SessionBody) :
  statuses_valid st →
  statuses_valid (updateSessionStatus st requser sid newStatus now).2
  ∧ statuses_valid (updateSessionStatus_basic st requser sid newStatus).2
  ∧ statuses_valid (createInterviewSession parseDate st requser body newId).2
  ∧ statuses_valid
      (createInterviewSession_basic parseDate st requser body newId).2
  ∧ statuses_valid (deleteInterviewSession st requser sid).2.
Proof.
  intros Hst. split; [|split; [|split; [|split]]].
  - unfold updateSessionStatus. handler_paths; try done.
    apply statuses_valid_save; [done|]. simpl.
    match goal with
    | H : negb (bool_decide _) = false |- _ =>
        apply negb_false_iff, bool_decide_eq_true in H
    end.
    simplify_eq. done.
  - unfold updateSessionStatus_basic. handler_paths; try done.
    apply statuses_valid_save; [done|]. simpl.
    match goal with
    | H : negb (bool_decide _) = false |- _ =>
        apply negb_false_iff, bool_decide_eq_true in H
    end.
    done.
  - unfold createInterviewSession. handler_paths; try done;
      (apply statuses_valid_save; [done | apply pending_valid]).
  - unfold createInterviewSession_basic. handler_paths; try done;
      (apply statuses_valid_save; [done | apply pending_valid]).
  - unfold deleteInterviewSession. handler_paths; try done.
    by apply statuses_valid_remove.
Qed.

Lemma session_statuses_stay_valid_witness :
  statuses_valid Sample.store
  ∧ statuses_valid (updateSessionStatus Sample.store (Some Sample.root) "s1"
                      (Some "Completed") 9).2.
Proof.
  assert (H : statuses_valid Sample.store).
  { apply (bool_decide_unpack _). vm_compute. exact I. }
  split; [exact H|].
  apply (session_statuses_stay_valid Sample.parseDate Sample.store
           (Some Sample.root) "s1" "s9" (Some "Completed") 9
           Sample.noBody H).
Defined.

Lemma session_denied_owner (u ru : User) (o : string) :
  o = id ru → session_denied u ru (Some o) = Some false.
Proof.
  intros ->. unfold session_denied, and_then.
  destruct (role u !== "admin"); [|done].
  destruct (role u !== "interviewer"); [|done].
  simpl. by rewrite strict_ne_false.
Qed.

(** What updateInterviewSession does once the permission test is
    passed, for a body without feedback and without dates. *)
Lemma update_session_plain (parseDate : string → option Z) (st : Store)
    (u : User) (sid : string) (s : InterviewSession) (body : SessionBody) :
  authenticated st u →
  sessions st !! sid = Some s →
  session_denied u u (Some (userId s)) = Some false →
  truthy (b_feedback body) = false →
  b_startTime body = None → b_endTime body = None →
  updateInterviewSession parseDate st (Some u) sid body
    = (respond 200 (SessionData (apply_update body None None s)),
       save_session sid (apply_update body None None s) st)
  ∧ updateInterviewSession_basic parseDate st (Some u) sid body
      = (respond 200 (SessionData (apply_update body None None s)),
         save_session sid (apply_update body None None s) st).
Proof.
  intros Hauth Hs Hden Hfb Ht0 Ht1.
  unfold updateInterviewSession, updateInterviewSession_basic.
  rewrite Hs. simpl. rewrite (authenticated_lookup _ _ Hauth). simpl.
  rewrite Hden. simpl. rewrite Hfb, Ht0, Ht1. done.
Qed.

(** X4. The status endpoint denies the plain owner of a session, but
    the general update endpoint hands the whole body to the store: the
    same owner stores the same status through updateInterviewSession,
    in both versions, and stays the owner. *)
Theorem owner_sets_status_through_update (parseDate : string → option Z)
    (st : Store) (u : User) (sid : string) (s : InterviewSession)
    (body : SessionBody) (v : string) (now : Z) :
  authenticated st u →
  sessions st !! sid = Some s →
  userId s = id u →
  role u ≠ "admin" → role u ≠ "interviewer" →
  v ∈ validStatuses →
  b_status body = Some v → b_userId body = None →
  truthy (b_feedback body) = false →
  b_startTime body = None → b_endTime body = None →
  statusCode (updateSessionStatus st (Some u) sid (Some v) now).1 = 403
  ∧ ∃ s', updateInterviewSession parseDate st (Some u) sid body
            = (respond 200 (SessionData s'), save_session sid s' st)
          ∧ updateInterviewSession_basic parseDate st (Some u) sid body
              = (respond 200 (SessionData s'), save_session sid s' st)
          ∧ status s' = v ∧ userId s' = id u.
Proof.
  intros Hauth Hs Hown Ha Hi Hv Hbs Hbu Hfb Ht0 Ht1. split.
  - unfold updateSessionStatus.
    rewrite (valid_status_truthy _ Hv). simpl.
    rewrite (bool_decide_eq_true_2 _ Hv). simpl. rewrite Hs. simpl.
    rewrite (authenticated_lookup _ _ Hauth). simpl.
    by rewrite !strict_ne_true.
  - exists (apply_update body None None s).
    destruct (update_session_plain parseDate st u sid s body Hauth Hs)
      as [H1 H2]; try done.
    { by apply session_denied_owner. }
    split; [exact H1|]. split; [exact H2|].
    simpl. by rewrite Hbs, Hbu.
Qed.

Lemma owner_sets_status_through_update_witness :
  statusCode (updateSessionStatus Sample.store (Some Sample.alice) "s1"
                (Some "Completed") 3).1 = 403
  ∧ ∃ s', updateInterviewSession Sample.parseDate Sample.store
            (Some Sample.alice) "s1"
            {| b_interviewType := None; b_startTime := None;
               b_endTime := None; b_userId := None;
               b_status := Some "Completed"; b_feedback := None |}
            = (respond 200 (SessionData s'),
               save_session "s1" s' Sample.store)
          ∧ status s' = "Completed".
Proof.
  destruct (owner_sets_status_through_update Sample.parseDate Sample.store
              Sample.alice "s1" Sample.session1
              {| b_interviewType := None; b_startTime := None;
                 b_endTime := None; b_userId := None;
                 b_status := Some "Completed"; b_feedback := None |}
              "Completed" 3) as [H403 (s' & Hupd & _ & Hst & _)];
    try reflexivity; try discriminate.
  { apply (bool_decide_unpack _). vm_compute. exact I. }
  split; [exact H403|]. exists s'. split; [exact Hupd | exact Hst].
Defined.

(** The answer of createInterviewSession to a well-formed request. *)
Lemma create_session_result (parseDate : string → option Z) (st : Store)
    (u : User) (body : SessionBody) (newId ty t0 t1 : string) (d0 d1 : Z) :
  b_interviewType body = Some ty → ty ∈ validInterviewTypes →
  b_startTime body = Some t0 → t0 ≠ "" →
  b_endTime body = Some t1 → t1 ≠ "" →
  parseDate t0 = Some d0 → parseDate t1 = Some d1 → (d0 < d1)%Z →
  createInterviewSession parseDate st (Some u) body newId
    = (respond 201
         (SessionData (newSession (or_else (b_userId body) (id u)) ty d0 d1)),
       save_session newId
         (newSession (or_else (b_userId body) (id u)) ty d0 d1) st).
Proof.
  intros Hty Hvalid Ht0 Ht00 Ht1 Ht10 Hd0 Hd1 Hlt.
  assert (Hty0 : ty ≠ "").
  { intros ->. unfold validInterviewTypes in Hvalid.
    repeat (apply elem_of_cons in Hvalid as [?|Hvalid]; [discriminate|]).
    by apply elem_of_nil in Hvalid. }
  unfold createInterviewSession.
  rewrite Hty, Ht0, Ht1, !truthy_Some by done. simpl.
  rewrite Hd0, Hd1.
  rewrite (proj2 (Z.leb_gt d1 d0)) by lia.
  rewrite bool_decide_eq_true_2 by done. simpl.
  change (Some (id u)) with (id <$> Some u).
  by rewrite owner_or_else.
Qed.

(** X5. A session that a caller creates for themselves (no [userId] in
    the body) can afterwards be updated by that caller, whatever their
    role, while another caller who is neither administrator nor
    interviewer is answered 403. *)
Theorem created_session_updatable_by_owner (parseDate : string → option Z)
    (st : Store) (u other : User) (body upd : SessionBody)
    (newId ty t0 t1 : string) (d0 d1 : Z) :
  authenticated st u →
  b_interviewType body = Some ty → ty ∈ validInterviewTypes →
  b_startTime body = Some t0 → t0 ≠ "" →
  b_endTime body = Some t1 → t1 ≠ "" →
  parseDate t0 = Some d0 → parseDate t1 = Some d1 → (d0 < d1)%Z →
  b_userId body = None →
  truthy (b_feedback upd) = false →
  b_startTime upd = None → b_endTime upd = None →
  let st1 := (createInterviewSession parseDate st (Some u) body newId).2 in
  statusCode (updateInterviewSession parseDate st1 (Some u) newId upd).1 = 200
  ∧ (authenticated st other → id other ≠ id u →
     role other ≠ "admin" → role other ≠ "interviewer" →
     updateInterviewSession parseDate st1 (Some other) newId upd
       = (respond 403 (Message "Permission denied"), st1)).
Proof.
  intros Hauth Hty Hvalid Ht0 Ht00 Ht1 Ht10 Hd0 Hd1 Hlt Hnone Hfb Hu0 Hu1 st1.
  unfold st1.
  rewrite (create_session_result parseDate st u body newId ty t0 t1 d0 d1)
    by done.
  rewrite Hnone. simpl.
  set (s := newSession (id u) ty d0 d1).
  assert (Hs : sessions (save_session newId s st) !! newId = Some s).
  { simpl. apply lookup_insert_eq. }
  split.
  - destruct (update_session_plain parseDate (save_session newId s st) u
                newId s upd) as [H1 _]; try done.
    { by apply session_denied_owner. }
    by rewrite H1.
  - intros Ho Hne Ha Hi. unfold updateInterviewSession. rewrite Hs. simpl.
    rewrite (authenticated_lookup _ _ Ho). simpl.
    by rewrite session_denied_other.
Qed.

Lemma created_session_updatable_by_owner_witness :
  statusCode (updateInterviewSession Sample.parseDate
                (createInterviewSession Sample.parseDate Sample.store
                   (Some Sample.bob) (Sample.createBody None) "s2").2
                (Some Sample.bob) "s2" Sample.noBody).1 = 200
  ∧ updateInterviewSession Sample.parseDate
      (createInterviewSession Sample.parseDate Sample.store
         (Some Sample.bob) (Sample.createBody None) "s2").2
      (Some Sample.alice) "s2" Sample.noBody
      = (respond 403 (Message "Permission denied"),
         (createInterviewSession Sample.parseDate Sample.store
            (Some Sample.bob) (Sample.createBody None) "s2").2).
Proof.
  assert (Hv : "Technical" ∈ validInterviewTypes).
  { apply (bool_decide_unpack _). vm_compute. exact I. }
  assert (Hlt : (1000 < 2000)%Z) by reflexivity.
  assert (Hne : ∀ a (s : string), String a s ≠ "") by discriminate.
  destruct (created_session_updatable_by_owner Sample.parseDate Sample.store
              Sample.bob Sample.alice (Sample.createBody None) Sample.noBody
              "s2" "Technical" "2025-01-01T10:00" "2025-01-01T11:00" 1000 2000
              eq_refl eq_refl Hv eq_refl (Hne _ _) eq_refl (Hne _ _)
              eq_refl eq_refl Hlt eq_refl eq_refl eq_refl eq_refl)
    as [Hown Hother].
  split; [exact Hown|].
  apply Hother; try reflexivity; discriminate.
Defined.

(** ** Listing sessions *)

Lemma insert_by_startTime_perm (x : string * InterviewSession)
    (l : list (string * InterviewSession)) :
  insert_by_startTime x l ≡ₚ x :: l.
Proof.
  induction l as [|y l IH]; [done|]. simpl.
  destruct (startTime y.2 <=? startTime x.2)%Z; [done|].
  rewrite IH. apply Permutation_swap.
Qed.

Lemma sort_startTime_desc_perm (l : list (string * InterviewSession)) :
  sort_startTime_desc l ≡ₚ l.
Proof.
  induction l as [|x l IH]; [done|]. unfold sort_startTime_desc in *. simpl.
  rewrite insert_by_startTime_perm. by rewrite IH.
Qed.

Lemma insert_by_startTime_sorted (x : string * InterviewSession)
    (l : list (string * InterviewSession)) :
  Sorted later_first l → Sorted later_first (insert_by_startTime x l).
Proof.
  induction l as [|y l IH]; intros Hl; simpl.
  - by repeat constructor.
  - destruct (startTime y.2 <=? startTime x.2)%Z eqn:Hle.
    + constructor; [done|]. constructor. unfold later_first. lia.
    + apply Sorted_inv in Hl as [Hl Hhd]. constructor; [by apply IH|].
      destruct l as [|z l]; simpl.
      * constructor. unfold later_first. lia.
      * destruct (startTime z.2 <=? startTime x.2)%Z.
        -- constructor. unfold later_first. lia.
        -- constructor. by apply HdRel_inv in Hhd.
Qed.

Lemma sort_startTime_desc_sorted (l : list (string * InterviewSession)) :
  Sorted later_first (sort_startTime_desc l).
Proof.
  induction l as [|x l IH]; [constructor|].
  unfold sort_startTime_desc in *. simpl.
  by apply insert_by_startTime_sorted.
Qed.

Lemma find_sessions_spec (f : SessionFilter) (st : Store)
    (kv : string * InterviewSession) :
  kv ∈ find_sessions f st
  ↔ sessions st !! kv.1 = Some kv.2 ∧ session_matches f kv.2 = true.
Proof.
  unfold find_sessions. rewrite list_elem_of_filter.
  destruct kv as [k s]. rewrite elem_of_map_to_list. simpl. tauto.
Qed.

Lemma session_matches_owner (f : SessionFilter) (s : InterviewSession)
    (o : string) :
  f_userId f = Some o → session_matches f s = true → userId s = o.
Proof.
  unfold session_matches, field_matches. intros ->.
  rewrite !andb_true_iff. intros [[H _] _].
  by apply bool_decide_eq_true in H.
Qed.

Lemma session_filter_plain (user ru : User) (q : SessionQuery) :
  role user ≠ "admin" → role user ≠ "interviewer" →
  f_userId (session_filter user ru q) = Some (id ru).
Proof.
  intros Ha Hi. unfold session_filter, strict_eq. simpl.
  by rewrite !bool_decide_eq_false_2.
Qed.

Lemma elem_of_populated (st : Store) (ps : PopulatedSession)
    (l : list (string * InterviewSession)) :
  ps ∈ populate_session st <$> l → (ps_id ps, ps_session ps) ∈ l.
Proof.
  intros (kv & -> & Hin)%list_elem_of_fmap. by destruct kv.
Qed.

(** X6. A caller who is neither administrator nor interviewer is shown
    only their own sessions, whatever [userId] the query string asks
    for.  The earlier getAllInterviewSessions answers 200 with stored
    sessions that all belong to the caller; the paged
    getAllInterviewSessions, for any store paging that returns part of
    the sorted matches, answers only with such sessions too, and
    refuses an unknown status filter with 400. *)
Theorem listing_shows_only_own_sessions
    (paginate : float → float → list (string * InterviewSession)
                → option (list (string * InterviewSession)))
    (st : Store) (u : User) (q : SessionQuery) (page limit : float) :
  (∀ skip lim l l', paginate skip lim l = Some l' → l' ⊆ l) →
  authenticated st u →
  role u ≠ "admin" → role u ≠ "interviewer" →
  (∃ l, getAllInterviewSessions_basic st (Some u) q = Data 200 l
        ∧ ∀ ps, ps ∈ l →
            userId (ps_session ps) = id u
            ∧ sessions st !! ps_id ps = Some (ps_session ps))
  ∧ (∀ pg, getAllInterviewSessions paginate st (Some u) q page limit
             = Data 200 pg →
       ∀ ps, ps ∈ data pg →
         userId (ps_session ps) = id u
         ∧ sessions st !! ps_id ps = Some (ps_session ps))
  ∧ (∀ v, q_status q = Some v → v ≠ "" → v ∉ validStatuses →
       getAllInterviewSessions paginate st (Some u) q page limit
         = Refused (respond 400 (Message "Invalid status filter"))).
Proof.
  intros Hpag Hauth Ha Hi.
  assert (Hown : ∀ ps l,
            l ⊆ sort_startTime_desc (find_sessions (session_filter u u q) st) →
            ps ∈ populate_session st <$> l →
            userId (ps_session ps) = id u
            ∧ sessions st !! ps_id ps = Some (ps_session ps)).
  { intros ps l Hsub Hps%elem_of_populated. apply Hsub in Hps.
    rewrite (sort_startTime_desc_perm _) in Hps.
    apply find_sessions_spec in Hps as [Hlook Hmatch]. simpl in *.
    split; [|done].
    eapply session_matches_owner; [|done].
    by apply session_filter_plain. }
  split; [|split].
  - unfold getAllInterviewSessions_basic. simpl.
    rewrite (authenticated_lookup _ _ Hauth). simpl.
    eexists. split; [reflexivity|].
    intros ps Hps. by apply (Hown ps _ (reflexivity _)).
  - unfold getAllInterviewSessions. simpl.
    rewrite (authenticated_lookup _ _ Hauth).
    intros pg Hpg ps Hps.
    destruct (truthy (q_status q) && _); [discriminate|].
    destruct (paginate _ _ _) as [l'|] eqn:Hl'; [|discriminate].
    simpl in Hpg. injection Hpg as <-. simpl in Hps.
    apply (Hown ps l'); [|done]. by apply (Hpag _ _ _ _ Hl').
  - unfold getAllInterviewSessions. simpl.
    rewrite (authenticated_lookup _ _ Hauth).
    intros v Hv Hne Hbad. rewrite Hv. simpl.
    rewrite (bool_decide_eq_true_2 _ Hne).
    by rewrite (bool_decide_eq_false_2 _ Hbad).
Qed.

Lemma listing_shows_only_own_sessions_witness :
  (∃ l, getAllInterviewSessions_basic Sample.store (Some Sample.bob)
          {| q_userId := Some "u1"; q_status := Some "Done";
             q_interviewType := None |} = Data 200 l
        ∧ ∀ ps, ps ∈ l →
            userId (ps_session ps) = id Sample.bob
            ∧ sessions Sample.store !! ps_id ps = Some (ps_session ps))
  ∧ getAllInterviewSessions (λ _ _ l, Some l) Sample.store (Some Sample.bob)
      {| q_userId := Some "u1"; q_status := Some "Done";
         q_interviewType := None |} 1 10
    = Refused (respond 400 (Message "Invalid status filter")).
Proof.
  destruct (listing_shows_only_own_sessions (λ _ _ l, Some l) Sample.store
              Sample.bob
              {| q_userId := Some "u1"; q_status := Some "Done";
                 q_interviewType := None |} 1 10)
    as (Hbasic & _ & Hbad);
    try reflexivity; try discriminate.
  { intros skip lim l l' [= <-]. done. }
  split; [exact Hbasic|].
  apply (Hbad "Done"); [reflexivity | discriminate |].
  apply (bool_decide_unpack _). vm_compute. exact I.
Defined.

Lemma filter_all {A} (P : A → Prop) `{!∀ x, Decision (P x)} (l : list A) :
  (∀ x, x ∈ l → P x) → filter P l = l.
Proof.
  induction l as [|x l IH]; intros Hall; [done|].
  rewrite filter_cons_True by (apply Hall; apply list_elem_of_here).
  f_equal. apply IH. intros y Hy. apply Hall. by apply list_elem_of_further.
Qed.

Lemma session_filter_elevated_empty (user ru : User) (q : SessionQuery) :
  role user = "admin" ∨ role user = "interviewer" →
  truthy (q_userId q) = false → truthy (q_status q) = false →
  truthy (q_interviewType q) = false →
  session_filter user ru q
    = {| f_userId := None; f_status := None; f_interviewType := None |}.
Proof.
  intros Hr H1 H2 H3. unfold session_filter, if_truthy.
  rewrite H1, H2, H3.
  by destruct Hr as [-> | ->].
Qed.

Lemma populated_forget (st : Store) (l : list (string * InterviewSession)) :
  (λ ps, (ps_id ps, ps_session ps)) <$> (populate_session st <$> l) = l.
Proof.
  induction l as [|[k s] l IH]; [done|]. rewrite !fmap_cons. by rewrite IH.
Qed.

(** X7. The earlier getAllInterviewSessions answers every
    authenticated caller with a list ordered by start time, latest
    first.  For an administrator or interviewer who gives no filter
    the list holds every stored session exactly once. *)
Theorem listing_sorted_latest_first (st : Store) (u : User)
    (q : SessionQuery) :
  authenticated st u →
  ∃ l, getAllInterviewSessions_basic st (Some u) q = Data 200 l
       ∧ Sorted (λ a b, (startTime (ps_session b)
                         ≤ startTime (ps_session a))%Z) l
       ∧ (role u = "admin" ∨ role u = "interviewer" →
          truthy (q_userId q) = false → truthy (q_status q) = false →
          truthy (q_interviewType q) = false →
          length l = size (sessions st)
          ∧ (λ ps, (ps_id ps, ps_session ps)) <$> l
              ≡ₚ map_to_list (sessions st)).
Proof.
  intros Hauth. unfold getAllInterviewSessions_basic. simpl.
  rewrite (authenticated_lookup _ _ Hauth). simpl.
  eexists. split; [reflexivity|]. split.
  - apply Sorted_fmap with (R1 := later_first); [by intros [] []|].
    apply sort_startTime_desc_sorted.
  - intros Hr H1 H2 H3.
    rewrite (session_filter_elevated_empty _ _ _ Hr H1 H2 H3).
    assert (Hall : find_sessions {| f_userId := None; f_status := None;
                                    f_interviewType := None |} st
                   = map_to_list (sessions st)).
    { unfold find_sessions. by apply filter_all. }
    rewrite Hall. split.
    + by rewrite length_fmap, sort_startTime_desc_perm, length_map_to_list.
    + rewrite populated_forget. apply sort_startTime_desc_perm.
Qed.

Lemma listing_sorted_latest_first_witness :
  ∃ l, getAllInterviewSessions_basic Sample.store (Some Sample.root)
         {| q_userId := None; q_status := None; q_interviewType := None |}
         = Data 200 l
       ∧ length l = size (sessions Sample.store).
Proof.
  destruct (listing_sorted_latest_first Sample.store Sample.root
              {| q_userId := None; q_status := None;
                 q_interviewType := None |} eq_refl)
    as (l & Hl & _ & Hall).
  exists l. split; [exact Hl|].
  apply Hall; try reflexivity. by left.
Defined.

(** ** Submissions *)

(** X8. A submission always belongs to the caller who created it:
    right after createSubmission that caller reads it back with 200,
    while any other caller who is not an administrator is answered
    403. *)
Theorem submission_read_back (st : Store) (u other : User)
    (pid src lang newId : string) :
  authenticated st u →
  let s := {| sub_problemId := pid; sub_userId := id u; code := src;
              language := lang; sub_status := None; result := None;
              executionTime := None |} in
  let st1 := (createSubmission st (Some u) pid src lang newId).2 in
  createSubmission st (Some u) pid src lang newId
    = (respond 201 (SubmissionData s), st1)
  ∧ getSubmissionById st1 (Some u) newId
      = (respond 200 (SubmissionData s), st1)
  ∧ (id other ≠ id u → role other ≠ "admin" →
     getSubmissionById st1 (Some other) newId
       = (respond 403 (Message "Access denied to this submission"), st1)).
Proof.
  intros Hauth s st1. split; [done|].
  assert (Hs : submissions st1 !! newId = Some s).
  { unfold st1. simpl. apply lookup_insert_eq. }
  assert (Ho : populate st1 (sub_userId s) = Some u).
  { unfold populate, st1. simpl. exact Hauth. }
  split.
  - unfold getSubmissionById. rewrite Hs, Ho.
    unfold and_then. destruct (role u !== "admin"); [|done].
    simpl. unfold id. by rewrite strict_ne_false.
  - intros Hne Hna. unfold getSubmissionById. rewrite Hs, Ho.
    rewrite (strict_ne_true _ _ Hna). simpl.
    rewrite strict_ne_true; [done|]. unfold id in Hne.
    intros Heq. apply Hne. by rewrite Heq.
Qed.

Lemma submission_read_back_witness :
  statusCode (getSubmissionById
                (createSubmission Sample.store (Some Sample.bob)
                   "p1" "x" "js" "sub2").2
                (Some Sample.bob) "sub2").1 = 200
  ∧ statusCode (getSubmissionById
                  (createSubmission Sample.store (Some Sample.bob)
                     "p1" "x" "js" "sub2").2
                  (Some Sample.alice) "sub2").1 = 403.
Proof.
  destruct (submission_read_back Sample.store Sample.bob Sample.alice
              "p1" "x" "js" "sub2" eq_refl) as (_ & Hown & Hother).
  split; [by rewrite Hown|].
  rewrite Hother; [reflexivity | discriminate | discriminate].
Defined.



(** X10. When the user record of a record's owner is gone, the
    populated owner reference is [null] and the ownership test throws:
    a caller who is not an administrator gets 500 from
    getSubmissionById, and a caller who is neither administrator nor
    interviewer gets 500 from getInterviewSessionById, instead of 403
    or 200.  The store is not changed. *)
Theorem dangling_owner_read_fails (st : Store) (u : User) (rid : string) :
  authenticated st u →
  role u ≠ "admin" →
  (∀ s, submissions st !! rid = Some s → users st !! sub_userId s = None →
     getSubmissionById st (Some u) rid
       = (respond 500 (Message "Failed to fetch submission"), st))
  ∧ (∀ s, sessions st !! rid = Some s → users st !! userId s = None →
       role u ≠ "interviewer" →
       getInterviewSessionById st (Some u) rid
         = (respond 500 (Message "Failed to retrieve interview session"), st)).
Proof.
  intros Hauth Hna. split.
  - intros s Hs Hgone. unfold getSubmissionById, populate.
    rewrite Hs, Hgone. by rewrite (strict_ne_true _ _ Hna).
  - intros s Hs Hgone Hni. unfold getInterviewSessionById, populate.
    rewrite Hs, Hgone. simpl. rewrite (authenticated_lookup _ _ Hauth).
    simpl. unfold session_denied_populated. by rewrite !strict_ne_true.
Qed.

Lemma dangling_owner_read_fails_witness :
  statusCode (deleteUser Sample.store (Some Sample.root) "u1").1 = 200
  ∧ statusCode (getSubmissionById
                  (deleteUser Sample.store (Some Sample.root) "u1").2
                  (Some Sample.bob) "sub1").1 = 500
  ∧ statusCode (getInterviewSessionById
                  (deleteUser Sample.store (Some Sample.root) "u1").2
                  (Some Sample.bob) "s1").1 = 500.
Proof.
  assert (Ha : authenticated
                 (deleteUser Sample.store (Some Sample.root) "u1").2
                 Sample.bob) by reflexivity.
  assert (Hr : role Sample.bob ≠ "admin") by discriminate.
  destruct (dangling_owner_read_fails _ Sample.bob "sub1" Ha Hr)
    as [Hsub _].
  destruct (dangling_owner_read_fails _ Sample.bob "s1" Ha Hr)
    as [_ Hses].
  split; [reflexivity|]. split.
  - by rewrite (Hsub Sample.submission1 eq_refl eq_refl).
  - rewrite (Hses Sample.session1 eq_refl eq_refl); [reflexivity|].
    discriminate.
Defined.

(** X11. deleteSubmission by an administrator removes exactly the
    named submission: it is answered 200, the submission is gone,
    every other submission is kept, and reading it afterwards gives 404
    to every authenticated caller.  Naming a submission that does not
    exist gives 404 and changes nothing. *)
Theorem deleted_submission_not_found (st : Store) (a : User) (sid : string) :
  role a = "admin" →
  (submissions st !! sid = None →
     deleteSubmission st (Some a) sid
       = (respond 404 (Message "Submission not found"), st))
  ∧ (is_Some (submissions st !! sid) →
     let st' := (deleteSubmission st (Some a) sid).2 in
     statusCode (deleteSubmission st (Some a) sid).1 = 200
     ∧ submissions st' !! sid = None
     ∧ (∀ k, k ≠ sid → submissions st' !! k = submissions st !! k)
     ∧ (∀ u, getSubmissionById st' (Some u) sid
               = (respond 404 (Message "Submission not found"), st'))).
Proof.
  intros Hr. unfold deleteSubmission. rewrite (not_admin_false _ Hr). split.
  - by intros ->.
  - intros [s Hs]. rewrite Hs. simpl.
    split; [done|]. split; [apply lookup_delete_eq|]. split.
    + intros k Hk. by apply lookup_delete_ne.
    + intros u. unfold getSubmissionById. simpl.
      by rewrite lookup_delete_eq.
Qed.

Lemma deleted_submission_not_found_witness :
  getSubmissionById (deleteSubmission Sample.store (Some Sample.root) "sub1").2
    (Some Sample.alice) "sub1"
    = (respond 404 (Message "Submission not found"),
       (deleteSubmission Sample.store (Some Sample.root) "sub1").2).
Proof.
  destruct (deleted_submission_not_found Sample.store Sample.root "sub1"
              eq_refl) as [_ Hdel].
  destruct Hdel as (_ & _ & _ & Hread); [by eexists|].
  apply Hread.
Defined.

(** ** Interview questions *)

Lemma size_filter_split {A} (P : string * A → Prop)
    `{!∀ x, Decision (P x)} (m : gmap string A) :
  size (filter P m) + size (filter (λ v, ¬ P v) m) = size m.
Proof.
  rewrite <-map_size_disj_union by apply map_disjoint_filter_complement.
  by rewrite map_filter_union_complement.
Qed.

Lemma filter_none {A} (P : A → Prop) `{!∀ x, Decision (P x)} (l : list A) :
  (∀ x, x ∈ l → ¬ P x) → filter P l = [].
Proof.
  induction l as [|x l IH]; intros Hnone; [done|].
  rewrite filter_cons_False by (apply Hnone; apply list_elem_of_here).
  apply IH. intros y Hy. apply Hnone. by apply list_elem_of_further.
Qed.

(** X12. Reading questions is open to every authenticated caller,
    whatever the role and whoever owns the session: the participant
    test never fails, so getQuestionsBySessionId lists exactly the
    stored questions of the session and getInterviewQuestionById
    returns any existing question.  In particular a question that an
    administrator creates, stored without answer or feedback, is at
    once readable by every caller. *)
Theorem question_reads_open (st : Store) (u : User) (sid : string) :
  (∃ l, getQuestionsBySessionId st (Some u) sid = Data 200 l
        ∧ ∀ k q, (k, q) ∈ l
                 ↔ questions st !! k = Some q ∧ session_id q = sid)
  ∧ (∀ qid q, questions st !! qid = Some q →
       getInterviewQuestionById st (Some u) qid
         = (respond 200 (QuestionData q), st))
  ∧ (∀ a text newId, role a = "admin" →
       let st1 := (createInterviewQuestion st (Some a) sid text newId).2 in
       getInterviewQuestionById st1 (Some u) newId
         = (respond 200
              (QuestionData {| session_id := sid; question := text;
                               submittedAnswer := None; q_feedback := None;
                               answer := None |}), st1)).
Proof.
  split; [|split].
  - unfold getQuestionsBySessionId, checkSessionParticipant. simpl.
    rewrite andb_false_r. eexists. split; [reflexivity|].
    intros k q. rewrite list_elem_of_filter, elem_of_map_to_list.
    simpl. tauto.
  - intros qid q Hq. unfold getInterviewQuestionById, checkSessionParticipant.
    rewrite Hq. simpl. by rewrite andb_false_r.
  - intros a text newId Hr st1. unfold st1, createInterviewQuestion.
    rewrite (not_admin_false _ Hr).
    unfold getInterviewQuestionById, checkSessionParticipant. simpl.
    rewrite lookup_insert_eq. simpl. by rewrite andb_false_r.
Qed.

Lemma question_reads_open_witness :
  role Sample.bob ≠ "admin"
  ∧ userId Sample.session1 ≠ id Sample.bob
  ∧ getInterviewQuestionById Sample.store (Some Sample.bob) "q1"
      = (respond 200 (QuestionData Sample.question1), Sample.store).
Proof.
  split; [discriminate|]. split; [discriminate|].
  apply (question_reads_open Sample.store Sample.bob "s1"). reflexivity.
Defined.

(** X13. deleteQuestionsBySessionId by an administrator removes the
    questions of the named session and no others; the count it answers
    with is the number of questions removed, and listing the session
    afterwards gives the empty list. *)
Theorem delete_questions_by_session (st : Store) (a : User) (sid : string) :
  role a = "admin" →
  let st' := (deleteQuestionsBySessionId st (Some a) sid).2 in
  ∃ n, (deleteQuestionsBySessionId st (Some a) sid).1 = Data 200 n
       ∧ n + size (questions st') = size (questions st)
       ∧ (∀ k q, questions st' !! k = Some q
                 ↔ questions st !! k = Some q ∧ session_id q ≠ sid)
       ∧ getQuestionsBySessionId st' (Some a) sid = Data 200 [].
Proof.
  intros Hr st'. unfold st', deleteQuestionsBySessionId.
  rewrite (not_admin_false _ Hr). simpl.
  eexists. split; [reflexivity|]. split; [|split].
  - apply (size_filter_split
             (λ kv : string * InterviewQuestion, session_id kv.2 = sid)).
  - intros k q. rewrite map_lookup_filter_Some. simpl. tauto.
  - unfold getQuestionsBySessionId, checkSessionParticipant. simpl.
    rewrite andb_false_r. f_equal.
    apply filter_none.
    intros [k q] Hin Hq. apply elem_of_map_to_list in Hin.
    apply map_lookup_filter_Some in Hin as [_ Hne]. simpl in *. done.
Qed.

Lemma delete_questions_by_session_witness :
  role Sample.root = "admin"
  ∧ ∃ n, (deleteQuestionsBySessionId Sample.store (Some Sample.root) "s1").1
           = Data 200 n
         ∧ n + size (questions
                       (deleteQuestionsBySessionId Sample.store
                          (Some Sample.root) "s1").2)
             = size (questions Sample.store).
Proof.
  split; [reflexivity|].
  destruct (delete_questions_by_session Sample.store Sample.root "s1" eq_refl)
    as (n & Hn & Hsize & _).
  exists n. split; [exact Hn | exact Hsize].
Defined.

Lemma submitAnswer_result (st : Store) (u : User) (qid : string)
    (q : InterviewQuestion) (submitted : option string) :
  questions st !! qid = Some q →
  submitAnswer st (Some u) qid submitted
    = (respond 200 (QuestionData (set_submittedAnswer submitted q)),
       set_questions
         (<[qid := set_submittedAnswer submitted q]> (questions st)) st).
Proof. intros Hq. unfold submitAnswer. by rewrite Hq. Qed.

Lemma provideFeedback_result (st : Store) (a : User) (qid : string)
    (q : InterviewQuestion) (fb ans : option string) :
  role a = "admin" →
  questions st !! qid = Some q →
  provideFeedback st (Some a) qid fb ans
    = (respond 200 (QuestionData (with_feedback fb ans q)),
       set_questions (<[qid := with_feedback fb ans q]> (questions st)) st).
Proof.
  intros Hr Hq. unfold provideFeedback.
  by rewrite (not_admin_false _ Hr), Hq.
Qed.

Lemma questions_set_questions (m : gmap string InterviewQuestion)
    (st : Store) :
  questions (set_questions m st) = m.
Proof. done. Qed.

Lemma set_questions_twice (m m' : gmap string InterviewQuestion)
    (st : Store) :
  set_questions m (set_questions m' st) = set_questions m st.
Proof. done. Qed.

(** X14. Submitting an answer and giving feedback touch different
    fields of a question: an administrator's provideFeedback keeps the
    submitted answer, a caller's submitAnswer keeps the feedback, and
    the two calls leave the same store in either order. *)
Theorem answer_feedback_commute (st : Store) (a u : User) (qid : string)
    (q : InterviewQuestion) (submitted fb ans : option string) :
  role a = "admin" →
  questions st !! qid = Some q →
  (provideFeedback (submitAnswer st (Some u) qid submitted).2
     (Some a) qid fb ans).2
    = (submitAnswer (provideFeedback st (Some a) qid fb ans).2
         (Some u) qid submitted).2
  ∧ (∃ q', questions (provideFeedback st (Some a) qid fb ans).2 !! qid
             = Some q'
           ∧ submittedAnswer q' = submittedAnswer q
           ∧ session_id q' = session_id q ∧ question q' = question q)
  ∧ (∃ q', questions (submitAnswer st (Some u) qid submitted).2 !! qid
             = Some q'
           ∧ q_feedback q' = q_feedback q ∧ answer q' = answer q
           ∧ submittedAnswer q' = submitted).
Proof.
  intros Hr Hq.
  rewrite (submitAnswer_result st u qid q submitted Hq).
  rewrite (provideFeedback_result st a qid q fb ans Hr Hq).
  cbn [snd].
  split; [|split].
  - rewrite (provideFeedback_result _ a qid (set_submittedAnswer submitted q)
               fb ans Hr)
      by (rewrite questions_set_questions; apply lookup_insert_eq).
    rewrite (submitAnswer_result _ u qid (with_feedback fb ans q) submitted)
      by (rewrite questions_set_questions; apply lookup_insert_eq).
    cbn [snd]. rewrite !questions_set_questions, !set_questions_twice.
    by rewrite !insert_insert_eq.
  - exists (with_feedback fb ans q).
    rewrite questions_set_questions, lookup_insert_eq. done.
  - exists (set_submittedAnswer submitted q).
    rewrite questions_set_questions, lookup_insert_eq. done.
Qed.

Lemma answer_feedback_commute_witness :
  (provideFeedback (submitAnswer Sample.store (Some Sample.bob) "q1"
                      (Some "fold")).2
     (Some Sample.root) "q1" (Some "good") (Some "foldr")).2
  = (submitAnswer (provideFeedback Sample.store (Some Sample.root) "q1"
                     (Some "good") (Some "foldr")).2
       (Some Sample.bob) "q1" (Some "fold")).2.
Proof.
  apply (answer_feedback_commute Sample.store Sample.root Sample.bob "q1"
           Sample.question1); reflexivity.
Defined.

(** ** User statistics: study plan, framing, repeated reads *)

(** X15. updateStudyPlan rejects a missing or empty plan with 400 and
    changes nothing.  Otherwise, for every caller and every [userId],
    it answers 200 and stores the plan in that user's record, keeping
    the counters of a record that already existed; a following
    getUserStats returns the stored record. *)
Theorem study_plan_upsert (schemaDefaults : UserStats) (st : Store)
    (requser : option User) (uid : string) (plan : option string) (now : Z) :
  (truthy plan = false →
     updateStudyPlan schemaDefaults st requser uid plan now
       = (respond 400 (Message "Study plan is required"), st))
  ∧ (∀ p, plan = Some p → p ≠ "" →
     ∃ s', updateStudyPlan schemaDefaults st requser uid plan now
             = (respond 200 (StatsData s'),
                set_stats (<[uid := s']> (stats st)) st)
           ∧ studyPlan s' = Some p ∧ lastUpdated s' = Some now
           ∧ (∀ s, stats st !! uid = Some s →
                stats_userId s' = stats_userId s
                ∧ problemsSolved s' = problemsSolved s
                ∧ averageScore s' = averageScore s
                ∧ timeSpent s' = timeSpent s)
           ∧ (∀ requser',
                getUserStats schemaDefaults
                  (updateStudyPlan schemaDefaults st requser uid plan now).2
                  requser' uid
                = (respond 200 (StatsData s'),
                   (updateStudyPlan schemaDefaults st requser uid plan now).2))).
Proof.
  unfold updateStudyPlan. split.
  - by intros ->.
  - intros p -> Hp. rewrite (truthy_Some _ Hp). simpl.
    eexists. split; [reflexivity|]. simpl.
    split; [done|]. split; [done|]. split.
    + by intros s ->.
    + intros requser'. unfold getUserStats. simpl.
      by rewrite lookup_insert_eq.
Qed.

Lemma study_plan_upsert_witness :
  ∃ s', updateStudyPlan Sample.zeroStats Sample.store (Some Sample.bob) "u1"
          (Some "graphs first") 4
          = (respond 200 (StatsData s'),
             set_stats (<["u1" := s']> (stats Sample.store)) Sample.store)
        ∧ studyPlan s' = Some "graphs first".
Proof.
  destruct (study_plan_upsert Sample.zeroStats Sample.store (Some Sample.bob)
              "u1" (Some "graphs first") 4) as [_ H].
  destruct (H "graphs first" eq_refl) as (s' & Hupd & Hplan & _);
    [discriminate|].
  exists s'. split; [exact Hupd | exact Hplan].
Defined.

Lemma only_stats_of_set (uid : string) (s : UserStats) (st : Store) :
  only_stats_of uid st (set_stats (<[uid := s]> (stats st)) st).
Proof.
  unfold only_stats_of. simpl. repeat (split; [done|]).
  intros uid' Hne. by apply lookup_insert_ne.
Qed.

Lemma only_stats_of_refl (uid : string) (st : Store) : only_stats_of uid st st.
Proof. unfold only_stats_of. by repeat (split; [done|]). Qed.

(** X16. getUserStats, incrementProblemsSolved and updateStudyPlan
    take only named fields from the request, so they change at most the
    statistics record of the user named in the path: the records of all
    other users and every other collection are left as they were, for
    every caller and every request.  (updateUserStats hands the whole
    body to the store and is not among them.) *)
Theorem stats_handlers_frame (schemaDefaults : UserStats) (st : Store)
    (requser : option User) (uid : string)
    (score spent : option float) (plan : option string) (now : Z) :
  only_stats_of uid st (getUserStats schemaDefaults st requser uid).2
  ∧ only_stats_of uid st
      (incrementProblemsSolved schemaDefaults st requser uid score spent now).2
  ∧ only_stats_of uid st
      (updateStudyPlan schemaDefaults st requser uid plan now).2.
Proof.
  split; [|split].
  - unfold getUserStats. destruct (stats st !! uid); simpl;
      [apply only_stats_of_refl | apply only_stats_of_set].
  - apply only_stats_of_set.
  - unfold updateStudyPlan. destruct (negb (truthy plan)); simpl;
      [apply only_stats_of_refl | apply only_stats_of_set].
Qed.

(** X17. getUserStats creates the default record at most once: a
    second call for the same user, by any caller, returns the record
    the first call returned and leaves the store as the first call left
    it. *)
Theorem get_stats_repeatable (schemaDefaults : UserStats) (st : Store)
    (requser requser' : option User) (uid : string) :
  getUserStats schemaDefaults
    (getUserStats schemaDefaults st requser uid).2 requser' uid
  = getUserStats schemaDefaults st requser uid.
Proof.
  unfold getUserStats. destruct (stats st !! uid) as [s|] eqn:Hs; simpl.
  - by rewrite Hs.
  - by rewrite lookup_insert_eq.
Qed.

(** ** Problem tags: uniqueness, listing, deletion *)

Lemma sublist_fmap {A B} (f : A → B) (l1 l2 : list A) :
  l1 `sublist_of` l2 → (f <$> l1) `sublist_of` (f <$> l2).
Proof.
  induction 1; rewrite ?fmap_cons; by constructor.
Qed.

Lemma remove_first_tag_sublist (tid : string) (l : list ProblemTag) :
  remove_first_tag tid l `sublist_of` l.
Proof.
  induction l as [|pt l IH]; simpl; [constructor|].
  case_bool_decide; by constructor.
Qed.

Lemma tags_unique_sublist (st : Store) (l : list ProblemTag) :
  tags_unique st → l `sublist_of` tags st → tags_unique (set_tags l st).
Proof.
  unfold tags_unique. simpl. intros Hu Hsub.
  eapply sublist_NoDup; [exact Hu|]. by apply sublist_fmap.
Qed.

(** X18. No handler of the tag controller introduces a second record
    for a [(problemId, tag)] pair: if the pairs of the stored tag
    records are pairwise different, they still are after
    createProblemTag, deleteProblemTag and deleteTagsByProblemId, for
    every caller and every request. *)
Theorem tag_pairs_stay_unique (st : Store) (requser : option User)
    (P t newId tid : string) :
  tags_unique st →
  tags_unique (createProblemTag st requser P t newId).2
  ∧ tags_unique (deleteProblemTag st requser tid).2
  ∧ tags_unique (deleteTagsByProblemId st requser P).2.
Proof.
  intros Hu. split; [|split].
  - unfold createProblemTag. destruct (not_admin requser); [done|].
    destruct (findTag P t (tags st)) as [pt|] eqn:Hf; [done|].
    unfold tags_unique. simpl. rewrite fmap_app. apply NoDup_app.
    split; [exact Hu|]. split; [|apply NoDup_singleton].
    intros pr Hin Hnew. apply list_elem_of_singleton in Hnew. subst pr.
    apply list_elem_of_fmap in Hin as (pt & Heq & Hpt).
    injection Heq as HP Ht.
    destruct (findTag_Some P t (tags st)) as [x Hx]; [|congruence].
    exists pt. done.
  - unfold deleteProblemTag. destruct (not_admin requser); [done|].
    destruct (find _ _); [|done].
    apply tags_unique_sublist; [done|]. apply remove_first_tag_sublist.
  - unfold deleteTagsByProblemId. destruct (not_admin requser); [done|].
    apply tags_unique_sublist; [done|]. apply sublist_filter.
Qed.

Lemma tag_pairs_stay_unique_witness :
  tags_unique Sample.store
  ∧ tags_unique (createProblemTag Sample.store (Some Sample.root)
                   "p1" "dp" "t2").2
  ∧ tags_unique (createProblemTag Sample.store (Some Sample.root)
                   "p1" "graph" "t2").2.
Proof.
  assert (Hu : tags_unique Sample.store).
  { apply (bool_decide_unpack _). vm_compute. exact I. }
  split; [exact Hu|]. split.
  - apply (tag_pairs_stay_unique Sample.store (Some Sample.root)
             "p1" "dp" "t2" "t1" Hu).
  - apply (tag_pairs_stay_unique Sample.store (Some Sample.root)
             "p1" "graph" "t2" "t1" Hu).
Defined.

Lemma filter_filter_other (P P' : string) (l : list ProblemTag) :
  P' ≠ P →
  filter (λ pt, problemId pt = P') (filter (λ pt, problemId pt ≠ P) l)
  = filter (λ pt, problemId pt = P') l.
Proof.
  intros Hne. induction l as [|pt l IH]; [done|].
  destruct (decide (problemId pt = P)) as [HP|HP].
  - rewrite (filter_cons_False (λ pt, problemId pt ≠ P)) by tauto.
    rewrite (filter_cons_False (λ pt, problemId pt = P')) by congruence.
    exact IH.
  - rewrite (filter_cons_True (λ pt, problemId pt ≠ P)) by done.
    destruct (decide (problemId pt = P')).
    + rewrite !(filter_cons_True (λ pt, problemId pt = P')) by done.
      by rewrite IH.
    + rewrite !(filter_cons_False (λ pt, problemId pt = P')) by done.
      exact IH.
Qed.



(** X20. deleteTagsByProblemId by an administrator removes all tags of
    the named problem and only those: the count it answers with is the
    number of tags the problem had, the problem has no tags afterwards,
    and the tag lists of all other problems are unchanged. *)
Theorem delete_tags_by_problem (st : Store) (a : User) (P : string) :
  role a = "admin" →
  let st' := (deleteTagsByProblemId st (Some a) P).2 in
  ∃ n, (deleteTagsByProblemId st (Some a) P).1 = Data 200 n
       ∧ (∀ l, getTagsByProblemId st P = Data 200 l → n = length l)
       ∧ getTagsByProblemId st' P = Data 200 []
       ∧ (∀ P', P' ≠ P → getTagsByProblemId st' P' = getTagsByProblemId st P')
       ∧ length (tags st') + n = length (tags st).
Proof.
  intros Hr st'. unfold st', deleteTagsByProblemId.
  rewrite (not_admin_false _ Hr). simpl.
  eexists. split; [reflexivity|]. unfold getTagsByProblemId. simpl.
  split; [|split; [|split]].
  - intros l [= <-]. by rewrite length_fmap.
  - f_equal. rewrite filter_none; [done|].
    intros pt Hin%list_elem_of_filter. tauto.
  - intros P' Hne. by rewrite filter_filter_other.
  - rewrite Nat.add_comm.
    rewrite <-length_app.
    apply Permutation_length. apply filter_app_complement.
Qed.

Lemma delete_tags_by_problem_witness :
  (deleteTagsByProblemId Sample.store (Some Sample.root) "p1").1 = Data 200 1
  ∧ getTagsByProblemId
      (deleteTagsByProblemId Sample.store (Some Sample.root) "p1").2 "p1"
    = Data 200 [].
Proof.
  destruct (delete_tags_by_problem Sample.store Sample.root "p1" eq_refl)
    as (n & Hn & _ & Hempty & _).
  split; [reflexivity | exact Hempty].
Defined.

Lemma find_tag_id_None (tid : string) (l : list ProblemTag) :
  (∀ pt, pt ∈ l → tag_id pt ≠ tid) →
  List.find (λ pt, bool_decide (tag_id pt = tid)) l = None.
Proof.
  induction l as [|x l IH]; intros Hno; [done|]. simpl.
  rewrite bool_decide_eq_false_2 by (apply Hno; apply list_elem_of_here).
  apply IH. intros pt Hpt. apply Hno. by apply list_elem_of_further.
Qed.

Lemma find_tag_id_Some (tid : string) (l : list ProblemTag) (pt : ProblemTag) :
  pt ∈ l → tag_id pt = tid →
  is_Some (List.find (λ pt, bool_decide (tag_id pt = tid)) l).
Proof.
  intros Hin Hid. induction l as [|x l IH]; [by apply elem_of_nil in Hin|].
  simpl. case_bool_decide as Hx; [by eexists|].
  apply elem_of_cons in Hin as [->|Hin]; [done | by apply IH].
Qed.

Lemma remove_first_tag_length (tid : string) (l : list ProblemTag)
    (pt : ProblemTag) :
  pt ∈ l → tag_id pt = tid →
  length (remove_first_tag tid l) + 1 = length l.
Proof.
  intros Hin Hid. induction l as [|x l IH]; [by apply elem_of_nil in Hin|].
  simpl. case_bool_decide as Hx; [lia|].
  apply elem_of_cons in Hin as [->|Hin]; [done|].
  simpl. rewrite <-(IH Hin). lia.
Qed.

(** X21. deleteProblemTag by an administrator answers 404 and changes
    nothing when no tag record has the given id; when one has, it
    answers 200 and removes exactly one record, keeping all others in
    their order. *)
Theorem delete_tag_by_id (st : Store) (a : User) (tid : string) :
  role a = "admin" →
  ((∀ pt, pt ∈ tags st → tag_id pt ≠ tid) →
     deleteProblemTag st (Some a) tid
       = (respond 404 (Message "Problem tag not found"), st))
  ∧ (∀ pt, pt ∈ tags st → tag_id pt = tid →
     let st' := (deleteProblemTag st (Some a) tid).2 in
     statusCode (deleteProblemTag st (Some a) tid).1 = 200
     ∧ length (tags st') + 1 = length (tags st)
     ∧ tags st' `sublist_of` tags st).
Proof.
  intros Hr. unfold deleteProblemTag. rewrite (not_admin_false _ Hr). split.
  - intros Hno. by rewrite (find_tag_id_None _ _ Hno).
  - intros pt Hin Hid.
    destruct (find_tag_id_Some tid (tags st) pt Hin Hid) as [x ->]. simpl.
    split; [done|]. split.
    + by apply (remove_first_tag_length tid (tags st) pt).
    + apply remove_first_tag_sublist.
Qed.

Lemma delete_tag_by_id_witness :
  deleteProblemTag Sample.store (Some Sample.root) "t9"
    = (respond 404 (Message "Problem tag not found"), Sample.store)
  ∧ length (tags (deleteProblemTag Sample.store (Some Sample.root) "t1").2) + 1
    = length (tags Sample.store).
Proof.
  split.
  - apply (delete_tag_by_id Sample.store Sample.root "t9" eq_refl).
    intros pt Hin. simpl in Hin. apply list_elem_of_singleton in Hin.
    subst pt. discriminate.
  - destruct (delete_tag_by_id Sample.store Sample.root "t1" eq_refl)
      as [_ Hdel].
    destruct (Hdel Sample.tag1 (list_elem_of_here _ _) eq_refl)
      as (_ & Hlen & _).
    exact Hlen.
Defined.

(** ** Problems *)

(** X22. The creator of a problem is always the caller of
    createProblem.  Right after creating it, that caller may update and
    delete the problem, whatever their role, while any other caller who
    is not an administrator is answered 403 by both. *)
Theorem problem_creator_rights (st : Store) (u other : User)
    (ti de newId : string) (updates : ProblemUpdate) :
  let p := {| title := ti; description := de; creatorId := _id u;
              approved := false |} in
  let st1 := (createProblem st (Some u) ti de newId).2 in
  createProblem st (Some u) ti de newId = (respond 201 (ProblemData p), st1)
  ∧ problems st1 !! newId = Some p
  ∧ statusCode (updateProblem st1 (Some u) newId updates).1 = 200
  ∧ statusCode (deleteProblem st1 (Some u) newId).1 = 200
  ∧ (_id other ≠ _id u → role other ≠ "admin" →
     statusCode (updateProblem st1 (Some other) newId updates).1 = 403
     ∧ statusCode (deleteProblem st1 (Some other) newId).1 = 403).
Proof.
  intros p st1.
  assert (Hp : problems st1 !! newId = Some p).
  { unfold st1. simpl. apply lookup_insert_eq. }
  split; [done|]. split; [exact Hp|].
  unfold updateProblem, deleteProblem, problem_denied. rewrite Hp. simpl.
  rewrite strict_ne_false by done. simpl.
  split; [done|]. split; [done|].
  intros Hne Hna. rewrite !strict_ne_true by (done || congruence).
  done.
Qed.

Lemma problem_creator_rights_witness :
  statusCode (updateProblem
                (createProblem Sample.store (Some Sample.bob) "A" "B" "p2").2
                (Some Sample.bob) "p2" Sample.noProblemUpdate).1 = 200
  ∧ statusCode (deleteProblem
                  (createProblem Sample.store (Some Sample.bob) "A" "B" "p2").2
                  (Some Sample.alice) "p2").1 = 403.
Proof.
  destruct (problem_creator_rights Sample.store Sample.bob Sample.alice
              "A" "B" "p2" Sample.noProblemUpdate)
    as (_ & _ & Hupd & _ & Hother).
  split; [exact Hupd|].
  apply Hother; discriminate.
Defined.

(** X23. approveProblem is reserved to administrators: every other
    caller, the creator included, is answered 403 and nothing changes.
    For an administrator it marks an existing problem as approved and
    keeps its title, description and creator; approving again changes
    nothing more. *)
Theorem approve_problem_admin_only (st : Store) (u : User) (pid : string)
    (p : Problem) :
  problems st !! pid = Some p →
  (role u ≠ "admin" →
     approveProblem st (Some u) pid
       = (respond 403 (Message "Admin access required"), st))
  ∧ (role u = "admin" →
     let st' := (approveProblem st (Some u) pid).2 in
     approveProblem st (Some u) pid
       = (respond 200 (ProblemData (set_approved p)), st')
     ∧ problems st' !! pid = Some (set_approved p)
     ∧ approved (set_approved p) = true
     ∧ creatorId (set_approved p) = creatorId p
     ∧ (∀ k, k ≠ pid → problems st' !! k = problems st !! k)
     ∧ (approveProblem st' (Some u) pid).2 = st').
Proof.
  intros Hp. unfold approveProblem. simpl. split.
  - intros Hna. by rewrite (strict_ne_true _ _ Hna).
  - intros Hr. rewrite (strict_ne_false _ _ Hr), Hp. simpl.
    split; [done|]. split; [apply lookup_insert_eq|].
    split; [done|]. split; [done|]. split.
    + intros k Hk. by apply lookup_insert_ne.
    + rewrite lookup_insert_eq. simpl. unfold set_problems. simpl.
      by rewrite insert_insert_eq.
Qed.

Lemma approve_problem_admin_only_witness :
  creatorId Sample.problem1 = id Sample.alice
  ∧ approveProblem Sample.store (Some Sample.alice) "p1"
      = (respond 403 (Message "Admin access required"), Sample.store)
  ∧ problems (approveProblem Sample.store (Some Sample.root) "p1").2 !! "p1"
      = Some (set_approved Sample.problem1).
Proof.
  destruct (approve_problem_admin_only Sample.store Sample.alice "p1"
              Sample.problem1 eq_refl) as [Hna _].
  destruct (approve_problem_admin_only Sample.store Sample.root "p1"
              Sample.problem1 eq_refl) as [_ Had].
  split; [reflexivity|]. split.
  - apply Hna. discriminate.
  - apply Had. reflexivity.
Defined.

(** X24. The approval gate can be bypassed by the creator: a caller
    who is not an administrator is refused by approveProblem, yet
    updateProblem hands the whole body to the store, so the creator of
    a problem sets its [approved] flag through updateProblem. *)
Theorem creator_approves_through_update (st : Store) (u : User)
    (pid : string) (p : Problem) (updates : ProblemUpdate) :
  problems st !! pid = Some p →
  creatorId p = _id u →
  role u ≠ "admin" →
  up_approved updates = Some true →
  statusCode (approveProblem st (Some u) pid).1 = 403
  ∧ statusCode (updateProblem st (Some u) pid updates).1 = 200
  ∧ ∃ p', problems (updateProblem st (Some u) pid updates).2 !! pid = Some p'
          ∧ approved p' = true.
Proof.
  intros Hp Hc Hna Hup.
  unfold approveProblem, updateProblem, problem_denied. simpl.
  rewrite (strict_ne_true _ _ Hna), Hp. simpl.
  rewrite (strict_ne_false _ _ Hc). simpl.
  split; [done|]. split; [done|].
  eexists. split; [apply lookup_insert_eq|]. simpl. by rewrite Hup.
Qed.

Lemma creator_approves_through_update_witness :
  statusCode (approveProblem Sample.store (Some Sample.alice) "p1").1 = 403
  ∧ ∃ p', problems
            (updateProblem Sample.store (Some Sample.alice) "p1"
               {| up_title := None; up_description := None;
                  up_creatorId := None; up_approved := Some true |}).2 !! "p1"
          = Some p'
          ∧ approved p' = true.
Proof.
  destruct (creator_approves_through_update Sample.store Sample.alice "p1"
              Sample.problem1
              {| up_title := None; up_description := None;
                 up_creatorId := None; up_approved := Some true |})
    as (H403 & _ & Hp'); try reflexivity; try discriminate.
  split; [exact H403 | exact Hp'].
Defined.

(** X25. bulkDeleteProblems by an administrator answers 400 and
    changes nothing when the body has no list of ids or an empty one.
    For a non-empty list it removes exactly the stored problems whose
    id is in the list, and the count it answers with is the number of
    problems removed.  Any other authenticated caller is answered 403
    and nothing changes. *)
Theorem bulk_delete_problems (st : Store) (u : User) :
  (role u ≠ "admin" → ∀ ids,
     bulkDeleteProblems st (Some u) ids
       = (Refused (respond 403 (Message "Admin access required")), st))
  ∧ (role u = "admin" →
     bulkDeleteProblems st (Some u) None
       = (Refused (respond 400 (Message "Valid problem IDs are required")), st)
     ∧ bulkDeleteProblems st (Some u) (Some [])
         = (Refused (respond 400 (Message "Valid problem IDs are required")),
            st)
     ∧ ∀ ids, ids ≠ [] →
         let st' := (bulkDeleteProblems st (Some u) (Some ids)).2 in
         ∃ n, (bulkDeleteProblems st (Some u) (Some ids)).1 = Data 200 n
              ∧ n + size (problems st') = size (problems st)
              ∧ (∀ k, k ∈ ids → problems st' !! k = None)
              ∧ (∀ k, k ∉ ids → problems st' !! k = problems st !! k)).
Proof.
  unfold bulkDeleteProblems. split.
  - intros Hna ids. by rewrite (strict_ne_true _ _ Hna).
  - intros Hr. rewrite (strict_ne_false _ _ Hr).
    split; [done|]. split; [done|].
    intros ids Hne. destruct ids as [|i ids]; [done|]. simpl.
    eexists. split; [reflexivity|]. split; [|split].
    + apply (size_filter_split (λ kv : string * Problem, kv.1 ∈ i :: ids)).
    + intros k Hk. apply map_lookup_filter_None. right.
      intros p _. simpl. tauto.
    + intros k Hk. apply option_eq. intros p.
      rewrite map_lookup_filter_Some. simpl. tauto.
Qed.

Lemma bulk_delete_problems_witness :
  bulkDeleteProblems Sample.store (Some Sample.alice) (Some ["p1"])
    = (Refused (respond 403 (Message "Admin access required")), Sample.store)
  ∧ problems (bulkDeleteProblems Sample.store (Some Sample.root)
                (Some ["p1"; "p7"])).2 !! "p1" = None.
Proof.
  destruct (bulk_delete_problems Sample.store Sample.alice) as [Hna _].
  destruct (bulk_delete_problems Sample.store Sample.root) as [_ Had].
  split; [apply Hna; discriminate|].
  destruct (Had eq_refl) as (_ & _ & Hdel).
  destruct (Hdel ["p1"; "p7"]) as (n & _ & _ & Hgone & _); [discriminate|].
  apply Hgone. apply list_elem_of_here.
Defined.

(** X26. deleteProblem does not clean up the tag collection: after the
    creator or an administrator deletes a problem, its tag records are
    all still stored, getTagsByProblemId still lists its tags, and
    getProblemsByTag answers with an empty entry for each of them. *)
Theorem delete_problem_leaves_tags (st : Store) (u : User) (pid : string)
    (p : Problem) :
  problems st !! pid = Some p →
  creatorId p = _id u ∨ role u = "admin" →
  let st' := (deleteProblem st (Some u) pid).2 in
  statusCode (deleteProblem st (Some u) pid).1 = 200
  ∧ problems st' !! pid = None
  ∧ tags st' = tags st
  ∧ getTagsByProblemId st' pid = getTagsByProblemId st pid
  ∧ (∀ pt, pt ∈ tags st → problemId pt = pid →
       ∃ l, getProblemsByTag st' (tag pt) = Data 200 l ∧ None ∈ l).
Proof.
  intros Hp Hok st'.
  assert (Hden : problem_denied p u = false).
  { unfold problem_denied. destruct Hok as [Hc|Hr].
    - by rewrite (strict_ne_false _ _ Hc).
    - rewrite (strict_ne_false _ _ Hr). apply andb_false_r. }
  unfold st', deleteProblem. rewrite Hp. simpl. rewrite Hden. simpl.
  split; [done|]. split; [apply lookup_delete_eq|].
  split; [done|]. split; [done|].
  intros pt Hin Hpid. unfold getProblemsByTag. simpl.
  eexists. split; [reflexivity|].
  apply list_elem_of_fmap. exists pt. split.
  - rewrite Hpid. symmetry. apply lookup_delete_eq.
  - apply list_elem_of_filter. done.
Qed.

Lemma delete_problem_leaves_tags_witness :
  statusCode (deleteProblem Sample.store (Some Sample.alice) "p1").1 = 200
  ∧ getTagsByProblemId (deleteProblem Sample.store (Some Sample.alice) "p1").2
      "p1" = Data 200 ["dp"]
  ∧ getProblemsByTag (deleteProblem Sample.store (Some Sample.alice) "p1").2
      "dp" = Data 200 [None].
Proof.
  destruct (delete_problem_leaves_tags Sample.store Sample.alice "p1"
              Sample.problem1 eq_refl (or_introl eq_refl))
    as (H200 & _ & _ & Htags & _).
  split; [exact H200|]. split; [by rewrite Htags | reflexivity].
Defined.

(** ** Users and identity *)

(** X27. Only an administrator changes roles, and a role change
    changes nothing else.  Every other caller is answered 403 with the
    store unchanged, so nobody raises their own role.  When an
    administrator gives an existing user the role [user] or [admin],
    the stored record gets that role and keeps its id, name and
    address, the other users are untouched, and every user is still
    filed under their own id.  The target may be the administrator's
    own account: there is no guard against self-demotion. *)
Theorem role_update_effect (st : Store) (u target : User)
    (uid r : string) :
  users_keyed st →
  users st !! uid = Some target →
  r = "user" ∨ r = "admin" →
  (role u ≠ "admin" → ∀ newRole,
     updateUserRole st (Some u) uid newRole
       = (respond 403 (Message "Admin access required"), st))
  ∧ (role u = "admin" →
     let st' := (updateUserRole st (Some u) uid (Some r)).2 in
     updateUserRole st (Some u) uid (Some r)
       = (respond 200 (UserData (set_role r target)), st')
     ∧ users st' !! uid = Some (set_role r target)
     ∧ role (set_role r target) = r
     ∧ _id (set_role r target) = _id target
     ∧ username (set_role r target) = username target
     ∧ email (set_role r target) = email target
     ∧ (∀ k, k ≠ uid → users st' !! k = users st !! k)
     ∧ users_keyed st').
Proof.
  intros Hk Ht Hr. unfold updateUserRole. simpl. split.
  - intros Hna newRole. by rewrite (strict_ne_true _ _ Hna).
  - intros Ha. rewrite (strict_ne_false _ _ Ha).
    assert (Hvalid : (r !== "user") && (r !== "admin") = false).
    { destruct Hr as [-> | ->]; reflexivity. }
    rewrite Hvalid, Ht. simpl.
    split; [done|]. split; [apply lookup_insert_eq|].
    repeat (split; [done|]). split.
    + intros k Hne. by apply lookup_insert_ne.
    + unfold users_keyed. simpl. apply map_Forall_insert_2; [|done].
      simpl. exact (Hk uid target Ht).
Qed.

Lemma role_update_effect_witness :
  updateUserRole Sample.store (Some Sample.alice) "u1" (Some "admin")
    = (respond 403 (Message "Admin access required"), Sample.store)
  ∧ users (updateUserRole Sample.store (Some Sample.root) "a1"
             (Some "user")).2 !! "a1"
    = Some (set_role "user" Sample.root).
Proof.
  assert (Hk : users_keyed Sample.store).
  { apply (bool_decide_unpack _). vm_compute. exact I. }
  destruct (role_update_effect Sample.store Sample.alice Sample.alice
              "u1" "admin" Hk eq_refl (or_intror eq_refl)) as [Hna _].
  destruct (role_update_effect Sample.store Sample.root Sample.root
              "a1" "user" Hk eq_refl (or_introl eq_refl)) as [_ Had].
  split; [apply Hna; discriminate|].
  apply Had. reflexivity.
Defined.

(** X28. When an administrator deletes another user, the account is
    gone for identity resolution: verifyToken answers 401 for a token
    bound to the deleted id (the id the path parameter denotes),
    although the token itself is still valid,
    and resolves every other id as before; getUserById and, for the
    deleted identity, getCurrentUser answer 404.  Deleting an id that
    is not stored answers 404 and changes nothing.  The users that
    remain are still filed under their own ids. *)
Theorem deleted_user_cannot_authenticate (st : Store) (a : User)
    (uid : string) :
  users_keyed st →
  role a = "admin" →
  uid ≠ _id a →
  (users st !! castObjectId uid = None →
     deleteUser st (Some a) uid
       = (respond 404 (Message "User not found"), st))
  ∧ (is_Some (users st !! castObjectId uid) →
     let st' := (deleteUser st (Some a) uid).2 in
     statusCode (deleteUser st (Some a) uid).1 = 200
     ∧ verifyToken st' (Valid (castObjectId uid))
         = inl (respond 401 (Message "User not found"))
     ∧ (∀ k, k ≠ castObjectId uid →
          verifyToken st' (Valid k) = verifyToken st (Valid k))
     ∧ getUserById st' (Some a) (castObjectId uid)
         = respond 404 (Message "User not found")
     ∧ (∀ t, users st !! castObjectId uid = Some t →
          getCurrentUser st' (Some t)
            = respond 404 (Message "User not found"))
     ∧ users_keyed st').
Proof.
  intros Hk Hr Hne. unfold deleteUser. simpl.
  rewrite (strict_ne_false _ _ Hr), (bool_decide_eq_false_2 _ Hne). split.
  - by intros ->.
  - intros [t Ht]. rewrite Ht. simpl.
    split; [done|]. unfold verifyToken. simpl.
    split; [|split; [|split; [|split]]].
    + by rewrite lookup_delete_eq.
    + intros k Hkne. by rewrite lookup_delete_ne.
    + unfold getUserById. simpl. rewrite (strict_ne_false _ _ Hr). simpl.
      by rewrite lookup_delete_eq.
    + intros t' [= <-]. unfold getCurrentUser. simpl.
      rewrite (Hk _ t Ht). by rewrite lookup_delete_eq.
    + unfold users_keyed. simpl. by apply map_Forall_delete.
Qed.

Lemma deleted_user_cannot_authenticate_witness :
  verifyToken Sample.store (Valid "u1") = inr Sample.alice
  ∧ castObjectId "u1" = "u1"
  ∧ verifyToken (deleteUser Sample.store (Some Sample.root) "u1").2
      (Valid "u1")
    = inl (respond 401 (Message "User not found")).
Proof.
  assert (Hk : users_keyed Sample.store).
  { apply (bool_decide_unpack _). vm_compute. exact I. }
  split; [reflexivity|]. split; [reflexivity|].
  destruct (deleted_user_cannot_authenticate Sample.store Sample.root "u1"
              Hk eq_refl) as [_ Hdel]; [discriminate|].
  destruct Hdel as (_ & H401 & _); [by eexists | exact H401].
Defined.

(** X29. For an authenticated caller the role gate lets the request
    through exactly when the caller's stored role is on the allow-list
    and answers 403 otherwise; with the allow-list [admin] it decides
    as verifyAdmin does.  A caller whose user record is missing is
    answered 404. *)
Theorem role_gate_decides_by_role (allowedRoles : list string)
    (st : Store) (u : User) :
  (users st !! id u = None →
     checkRolePermission allowedRoles st (Some u)
       = Some (respond 404 (Message "User not found")))
  ∧ (authenticated st u →
     (role u ∈ allowedRoles →
        checkRolePermission allowedRoles st (Some u) = None)
     ∧ (role u ∉ allowedRoles →
          checkRolePermission allowedRoles st (Some u)
            = Some (respond 403 (Message "Permission denied")))
     ∧ (checkRolePermission ["admin"] st (Some u) = None
        ↔ verifyAdmin u = None)).
Proof.
  unfold checkRolePermission. simpl. split.
  - by intros ->.
  - intros Hauth. rewrite (authenticated_lookup _ _ Hauth). simpl.
    split; [|split].
    + intros Hin. by rewrite (bool_decide_eq_true_2 _ Hin).
    + intros Hout. by rewrite (bool_decide_eq_false_2 _ Hout).
    + unfold verifyAdmin, strict_ne.
      destruct (decide (role u = "admin")) as [Hr|Hr].
      * rewrite bool_decide_eq_true_2 by (rewrite Hr; apply list_elem_of_here).
        rewrite bool_decide_eq_false_2 by tauto. done.
      * rewrite bool_decide_eq_false_2
          by (intros Hin%list_elem_of_singleton; done).
        rewrite bool_decide_eq_true_2 by done. done.
Qed.

Lemma role_gate_decides_by_role_witness :
  checkRolePermission ["admin"; "interviewer"] Sample.store (Some Sample.ivy)
    = None
  ∧ checkRolePermission ["admin"; "interviewer"] Sample.store
      (Some Sample.alice)
    = Some (respond 403 (Message "Permission denied")).
Proof.
  destruct (role_gate_decides_by_role ["admin"; "interviewer"] Sample.store
              Sample.ivy) as [_ Hivy].
  destruct (role_gate_decides_by_role ["admin"; "interviewer"] Sample.store
              Sample.alice) as [_ Halice].
  split.
  - apply (Hivy eq_refl). apply (bool_decide_unpack _). vm_compute. exact I.
  - apply (Halice eq_refl). apply (bool_decide_unpack _). vm_compute. exact I.
Defined.

(** ** Handlers reserved to administrators *)

(** X30. The handlers that test [!req.user || req.user.role !==
    "admin"] refuse every request that carries no identity or an
    identity whose role is not admin: the answer is 403 (also for a
    request without identity, not 401) and the store is unchanged.
    This holds for updating and deleting submissions, listing all
    submissions or those of a problem, creating, grading and deleting
    questions, and creating and deleting tags. *)
Theorem admin_only_handlers_refuse
    (bySubmittedAt : list (string * Submission) → list (string * Submission))
    (st : Store) (requser : option User) (rid a b : string)
    (body : SubmissionUpdate) (fb ans : option string) :
  not_admin requser = true →
  updateSubmissionStatus st requser rid body = (adminRequired, st)
  ∧ deleteSubmission st requser rid = (adminRequired, st)
  ∧ getAllSubmissions bySubmittedAt st requser = Refused adminRequired
  ∧ getSubmissionsByProblemId bySubmittedAt st requser rid
      = Refused adminRequired
  ∧ createInterviewQuestion st requser rid a b = (adminRequired, st)
  ∧ provideFeedback st requser rid fb ans = (adminRequired, st)
  ∧ deleteInterviewQuestion st requser rid = (adminRequired, st)
  ∧ deleteQuestionsBySessionId st requser rid = (Refused adminRequired, st)
  ∧ createProblemTag st requser rid a b = (adminRequired, st)
  ∧ deleteProblemTag st requser rid = (adminRequired, st)
  ∧ deleteTagsByProblemId st requser rid = (Refused adminRequired, st).
Proof.
  intros Hna.
  unfold updateSubmissionStatus, deleteSubmission, getAllSubmissions,
    getSubmissionsByProblemId, createInterviewQuestion, provideFeedback,
    deleteInterviewQuestion, deleteQuestionsBySessionId, createProblemTag,
    deleteProblemTag, deleteTagsByProblemId.
  rewrite Hna. by repeat split.
Qed.

Lemma admin_only_handlers_refuse_witness :
  deleteSubmission Sample.store None "sub1" = (adminRequired, Sample.store)
  ∧ statusCode adminRequired = 403
  ∧ createProblemTag Sample.store (Some Sample.ivy) "p1" "graph" "t2"
    = (adminRequired, Sample.store).
Proof.
  split; [|split; [reflexivity|]].
  - apply (admin_only_handlers_refuse (λ l, l) Sample.store None "sub1"
             "" "" Sample.noSubmissionUpdate None None eq_refl).
  - apply (admin_only_handlers_refuse (λ l, l) Sample.store (Some Sample.ivy)
             "p1" "graph" "t2" Sample.noSubmissionUpdate None None eq_refl).
Defined.
